(** * EC2 metrics report: a shallow embedding of [report.py]

    The script reads the AWS profiles of [~/.aws/config], lists the EC2
    instances of every profile, queries four CloudWatch metrics per
    instance, collects one row per instance, writes the rows to a
    spreadsheet and mails it.

    Everything the script does to the outside (clock, AWS, files, SMTP,
    process environment, log) goes through a small state-and-exception
    monad over a [World]; what the outside answers is an [Env] of
    oracles, one per external call of the source. *)

From Stdlib Require Import String ZArith List Bool Lia.
From stdpp Require Import base option list strings gmap.
Import ListNotations.

Open Scope string_scope.

(** ** Python dictionaries

    A [dict] keeps insertion order ([all_profiles.items()], the column
    order of the rows), so it is an association list with unique keys:
    assigning an existing key replaces its value in place, a new key
    goes to the end. *)

Module Dict.

Definition dict (V : Type) : Type := list (string * V).

Fixpoint get {V} (k : string) (d : dict V) : option V :=
  match d with
  | [] => None
  | (k', v) :: d' => if String.eqb k k' then Some v else get k d'
  end.

Fixpoint set {V} (k : string) (v : V) (d : dict V) : dict V :=
  match d with
  | [] => [(k, v)]
  | (k', v') :: d' =>
      if String.eqb k k' then (k, v) :: d' else (k', v') :: set k v d'
  end.

Definition keys {V} (d : dict V) : list string := map fst d.

Definition items {V} (d : dict V) : list (string * V) := d.

(** A dict display [{k1: v1, ..., kn: vn}] assigns left to right. *)
Definition literal {V} (kvs : list (string * V)) : dict V :=
  fold_left (fun d kv => set (fst kv) (snd kv) d) kvs [].

End Dict.

Abbreviation dict := Dict.dict.

(** ** Exceptions

    The classes the script names in its [except] clauses, the
    [configparser] errors [config.get] raises, and the classes outside
    the [BotoCoreError] hierarchy that the external calls raise
    ([botocore]'s [ClientError] derives from [Exception] directly). *)

Inductive exn_class : Type :=
  | NoCredentialsError
  | PartialCredentialsError
  | BotoCoreError        (* any other subclass, e.g. ProfileNotFound *)
  | ClientError
  | NoSectionError
  | NoOptionError
  | InterpolationSyntaxError
  | InterpolationMissingOptionError
  | InterpolationDepthError
  | KeyError
  | OSError
  | SMTPException.

Record exn : Type := Exn { exn_cls : exn_class; exn_str : string }.

(** [isinstance(e, C)] for the classes above. *)
Definition isinstance (e : exn) (c : exn_class) : bool :=
  match c, exn_cls e with
  | BotoCoreError, (NoCredentialsError | PartialCredentialsError | BotoCoreError) => true
  | NoCredentialsError, NoCredentialsError => true
  | PartialCredentialsError, PartialCredentialsError => true
  | ClientError, ClientError => true
  | NoSectionError, NoSectionError => true
  | NoOptionError, NoOptionError => true
  | InterpolationSyntaxError, InterpolationSyntaxError => true
  | InterpolationMissingOptionError, InterpolationMissingOptionError => true
  | InterpolationDepthError, InterpolationDepthError => true
  | KeyError, KeyError => true
  | OSError, OSError => true
  | SMTPException, SMTPException => true
  | _, _ => false
  end.

Inductive result (A : Type) : Type :=
  | Normal (a : A)
  | Raise (e : exn).
Arguments Normal {A} a.
Arguments Raise {A} e.

(** ** The configuration store ([configparser.ConfigParser])

    [sections] holds the named sections in file order, [defaults] the
    options of the special [DEFAULT] section, which every section
    inherits. Option names are stored lower-cased, as the parser does,
    and values as the file has them. *)

Record ConfigParser : Type := {
  defaults : dict string;
  sections : dict (dict string)
}.

Definition DEFAULTSECT : string := "DEFAULT".

Definition empty_config : ConfigParser := {| defaults := []; sections := [] |}.

(** [config.read(path)]: a file that cannot be opened is skipped and the
    parser stays empty. [None] is the absent file, [Some c] a file that
    parses to [c]. *)
Definition config_read (file : option ConfigParser) : ConfigParser :=
  match file with
  | Some c => c
  | None => empty_config
  end.

Definition config_sections (config : ConfigParser) : list string :=
  Dict.keys (sections config).

(** *** Interpolation ([BasicInterpolation])

    [config.get] does not return the stored value as it is: it expands
    [%(name)s] to the value of option [name] (of the section, else of
    [DEFAULT]), turns [%%] into [%], and raises on any other [%]. *)

Definition percent : Ascii.ascii := Ascii.ascii_of_nat 37.
Definition lparen : Ascii.ascii := Ascii.ascii_of_nat 40.
Definition rparen : Ascii.ascii := Ascii.ascii_of_nat 41.
Definition letter_s : Ascii.ascii := Ascii.ascii_of_nat 115.

(** ["%" in v] *)
Fixpoint has_percent (v : string) : bool :=
  match v with
  | EmptyString => false
  | String c rest => if Ascii.eqb c percent then true else has_percent rest
  end.

(** [optionxform]: [str.lower], on the letters A to Z. *)
Definition lower_ascii (c : Ascii.ascii) : Ascii.ascii :=
  let n := Ascii.nat_of_ascii c in
  if (65 <=? n)%nat && (n <=? 90)%nat then Ascii.ascii_of_nat (n + 32) else c.

Fixpoint optionxform (name : string) : string :=
  match name with
  | EmptyString => EmptyString
  | String c rest => String (lower_ascii c) (optionxform rest)
  end.

(** [repr] of a string that holds no quote, backslash or control
    character. *)
Definition repr (v : string) : string := "'" ++ v ++ "'".

(** What stands before the first [)] of [text], and what follows it. *)
Fixpoint split_at_rparen (text : string) : option (string * string) :=
  match text with
  | EmptyString => None
  | String c rest =>
      if Ascii.eqb c rparen then Some (EmptyString, rest)
      else
        match split_at_rparen rest with
        | Some (name, after) => Some (String c name, after)
        | None => None
        end
  end.

(** [_KEYCRE.match(rest)] for [rest = "%(" ++ text], the pattern being
    [%\(([^)]+)\)s]: the name between the parentheses and what follows
    the [s]. *)
Definition match_key (text : string) : option (string * string) :=
  match split_at_rparen text with
  | Some (String c name, String c' after) =>
      if Ascii.eqb c' letter_s then Some (String c name, after) else None
  | _ => None
  end.

Definition MAX_INTERPOLATION_DEPTH : nat := 10.

(** The [while] loop of [_interpolate_some]; [nested] is the call of
    [_interpolate_some] one level deeper. Every pass takes at least one
    character off [rest], so [passes], the length of [rest] at the
    start, bounds them. *)
Fixpoint interpolate_loop (nested : string -> string -> result string)
    (opt section rawval : string) (map : string -> option string)
    (passes : nat) (rest accum : string) {struct passes} : result string :=
  match passes, rest with
  | _, EmptyString => Normal accum
  | O, _ => Normal accum
  | S passes', String c rest1 =>
      if negb (Ascii.eqb c percent) then
        interpolate_loop nested opt section rawval map passes' rest1
          (accum ++ String c EmptyString)
      else
        match rest1 with
        | String c1 rest2 =>
            if Ascii.eqb c1 percent then
              interpolate_loop nested opt section rawval map passes' rest2
                (accum ++ "%")
            else if Ascii.eqb c1 lparen then
              match match_key rest2 with
              | None =>
                  Raise (Exn InterpolationSyntaxError
                           ("bad interpolation variable reference " ++ repr rest))
              | Some (name, after) =>
                  match map (optionxform name) with
                  | None =>
                      Raise (Exn InterpolationMissingOptionError
                               ("Bad value substitution: option " ++ repr opt
                                  ++ " in section " ++ repr section
                                  ++ " contains an interpolation key "
                                  ++ repr (optionxform name)
                                  ++ " which is not a valid option name. Raw value: "
                                  ++ repr rawval))
                  | Some v =>
                      if has_percent v then
                        match nested v accum with
                        | Normal accum' =>
                            interpolate_loop nested opt section rawval map
                              passes' after accum'
                        | Raise e => Raise e
                        end
                      else
                        interpolate_loop nested opt section rawval map
                          passes' after (accum ++ v)
                  end
              end
            else
              Raise (Exn InterpolationSyntaxError
                       ("'%' must be followed by '%' or '(', found: " ++ repr rest))
        | EmptyString =>
            Raise (Exn InterpolationSyntaxError
                     ("'%' must be followed by '%' or '(', found: " ++ repr rest))
        end
  end.

(** [_interpolate_some]: [levels] is how many nesting levels are left
    (the call at depth 11 raises), [accum] what has been produced so
    far. *)
Fixpoint interpolate_some (levels : nat) (opt section rawval : string)
    (map : string -> option string) (rest accum : string) {struct levels}
    : result string :=
  match levels with
  | O =>
      Raise (Exn InterpolationDepthError
               ("Recursion limit exceeded in value substitution: option "
                  ++ repr opt ++ " in section " ++ repr section
                  ++ " contains an interpolation key which cannot be substituted in 10 steps. Raw value: "
                  ++ repr rawval))
  | S levels' =>
      interpolate_loop (interpolate_some levels' opt section rawval map)
        opt section rawval map (String.length rest) rest accum
  end.

(** [before_get]: the value found, with its references expanded;
    [sectiondict] and then [DEFAULT] are where the references look. *)
Definition before_get (config : ConfigParser) (section opt value : string)
    (sectiondict : dict string) : result string :=
  let map name :=
    match Dict.get name sectiondict with
    | Some v => Some v
    | None => Dict.get name (defaults config)
    end in
  interpolate_some MAX_INTERPOLATION_DEPTH opt section value map value "".

(** [config.get(section, option, fallback=...)]; [fallback = None] is the
    call without the keyword. The section's own options shadow
    [DEFAULT]'s; the value found is interpolated, the fallback is
    returned as it is. *)
Definition config_get (config : ConfigParser) (section opt : string)
    (fallback : option string) : result string :=
  let lookup (sectiondict : dict string) :=
    match Dict.get (optionxform opt) sectiondict with
    | Some v => before_get config section (optionxform opt) v sectiondict
    | None =>
        match Dict.get (optionxform opt) (defaults config) with
        | Some v => before_get config section (optionxform opt) v sectiondict
        | None =>
            match fallback with
            | Some fb => Normal fb
            | None =>
                Raise (Exn NoOptionError
                         ("No option '" ++ optionxform opt
                            ++ "' in section: '" ++ section ++ "'"))
            end
        end
    end in
  match Dict.get section (sections config) with
  | Some sectiondict => lookup sectiondict
  | None =>
      if String.eqb section DEFAULTSECT then lookup []
      else
        match fallback with
        | Some fb => Normal fb
        | None => Raise (Exn NoSectionError ("No section: '" ++ section ++ "'"))
        end
  end.

(** ** [get_profiles]

    The [fallback=] argument is an ordinary argument: Python evaluates
    [config.get('default', 'region')] before the outer [config.get] is
    called, on every pass of the loop. *)
Fixpoint get_profiles_loop (config : ConfigParser) (profiles : list string)
    (all_profiles : dict string) : result (dict string) :=
  match profiles with
  | [] => Normal all_profiles
  | profile :: rest =>
      match config_get config "default" "region" None with
      | Raise e => Raise e
      | Normal fb =>
          match config_get config profile "region" (Some fb) with
          | Raise e => Raise e
          | Normal profile_region =>
              get_profiles_loop config rest
                (Dict.set profile profile_region all_profiles)
          end
      end
  end.

Definition get_profiles (file : option ConfigParser) : result (dict string) :=
  let all_profiles := [] in
  let config := config_read file in
  get_profiles_loop config (config_sections config) all_profiles.

(** ** Values, tables and mail *)

(** The averages CloudWatch returns are Python floats. The script never
    computes with them: it stores them and prints them. *)
Class PyFloat (float : Type) : Type := float_str : float -> string.

Declare Scope py_scope.
Delimit Scope py_scope with py.

Section Report.

Context {float : Type} `{!PyFloat float}.

(** What a cell of the report holds: a float or a string. *)
Inductive value : Type :=
  | VFloat (x : float)
  | VStr (s : string).

Definition str (v : value) : string :=
  match v with
  | VFloat x => float_str x
  | VStr s => s
  end.

(** [f"{x}"] of an [os.getenv] result. *)
Definition str_opt (o : option string) : string :=
  match o with
  | Some s => s
  | None => "None"
  end.

(** A [pandas.DataFrame] without its index: the column labels and, per
    row, one cell per column ([None] is the missing value NaN). The same
    record is the content of the spreadsheet file: [to_excel(index=False)]
    writes the labels as the header row and then the rows. *)
Record DataFrame : Type := {
  columns : list string;
  rows : list (list (option value))
}.

Record email : Type := {
  msg_From : option string;
  msg_To : option string;
  msg_Subject : string;
  msg_body : string;
  attachment_filename : string;
  attachment_payload : DataFrame
}.

(** ** The world the script runs in *)

Inductive levelname : Type := INFO | ERROR.

Record World : Type := {
  log : list (levelname * string);      (* records emitted by [logging] *)
  clock_reads : nat;                    (* calls of [utcnow] so far *)
  files : gmap string DataFrame;        (* spreadsheet files on disk *)
  environ : gmap string string;         (* [os.environ] *)
  outbox : list email;                  (* messages the server accepted *)
  metrics_report : list (dict value)    (* the module-level list *)
}.

Definition with_log (l : list (levelname * string)) (w : World) : World :=
  {| log := l; clock_reads := clock_reads w; files := files w;
     environ := environ w; outbox := outbox w;
     metrics_report := metrics_report w |}.

Definition with_clock_reads (n : nat) (w : World) : World :=
  {| log := log w; clock_reads := n; files := files w;
     environ := environ w; outbox := outbox w;
     metrics_report := metrics_report w |}.

Definition with_files (f : gmap string DataFrame) (w : World) : World :=
  {| log := log w; clock_reads := clock_reads w; files := f;
     environ := environ w; outbox := outbox w;
     metrics_report := metrics_report w |}.

Definition with_environ (e : gmap string string) (w : World) : World :=
  {| log := log w; clock_reads := clock_reads w; files := files w;
     environ := e; outbox := outbox w;
     metrics_report := metrics_report w |}.

Definition with_outbox (o : list email) (w : World) : World :=
  {| log := log w; clock_reads := clock_reads w; files := files w;
     environ := environ w; outbox := o;
     metrics_report := metrics_report w |}.

Definition with_metrics_report (r : list (dict value)) (w : World) : World :=
  {| log := log w; clock_reads := clock_reads w; files := files w;
     environ := environ w; outbox := outbox w;
     metrics_report := r |}.

(** ** What the outside answers *)

Record Session : Type := { profile_name : string; region_name : string }.

Record Client : Type := { service_name : string; session : Session }.

Record Datapoint : Type := { Timestamp : Z; Average : option float }.

(** The parsed reply of [GetMetricStatistics]; the script itself tests
    whether the key ['Datapoints'] is there. *)
Record MetricStatistics : Type := { Datapoints : option (list Datapoint) }.

Record Instance : Type := { InstanceId : string }.
Record Reservation : Type := { Instances : list Instance }.
Record DescribeInstances : Type := { Reservations : list Reservation }.

Record MetricQuery : Type := {
  Namespace : string;
  MetricName : string;
  Dimensions : list (string * string);
  StartTime : Z;
  EndTime : Z;
  Period : Z;
  Statistics : list string
}.

(** One oracle per external call of the script. [None] in an
    [option exn] is the call that returns, [Some e] the call that raises
    [e]. An answer depends on the arguments of the call only; the time
    window of a metric query is among them. Times are microseconds
    since the epoch. [SMTP_send_message] is smtplib's [send_message]
    with its own checks: the library refuses a message that names no
    recipient ([SMTPRecipientsRefused]) whatever the server would say,
    so the oracle of a run answers [Some _] for such a message. *)
Record Env : Type := {
  aws_config : option ConfigParser;                 (* ~/.aws/config *)
  clock : nat -> Z;                                 (* the n-th utcnow() *)
  boto3_Session : string -> string -> option exn;
  Session_client : Session -> string -> option exn;
  describe_instances : Client -> result DescribeInstances;
  cw_get_metric_statistics : Client -> MetricQuery -> result MetricStatistics;
  file_write : string -> option exn;                (* is the path writable *)
  dotenv : gmap string string;                      (* the .env file *)
  SMTP_connect : string -> Z -> option exn;
  SMTP_starttls : option exn;
  SMTP_login : option string -> option string -> option exn;
  SMTP_send_message : email -> option exn;
  SMTP_quit : option exn
}.

(** ** The monad: state that survives exceptions *)

Definition M (A : Type) : Type := World -> result A * World.

Definition ret {A} (a : A) : M A := fun w => (Normal a, w).

Definition raise {A} (e : exn) : M A := fun w => (Raise e, w).

Definition bind {A B} (m : M A) (k : A -> M B) : M B :=
  fun w =>
    match m w with
    | (Normal a, w') => k a w'
    | (Raise e, w') => (Raise e, w')
    end.

Notation "x <- m ;; k" := (bind m (fun x => k))
  (at level 100, m at next level, k at level 200, right associativity)
  : py_scope.
Notation "m ;; k" := (bind m (fun _ => k))
  (at level 100, k at level 200, right associativity) : py_scope.
Local Open Scope py_scope.

Definition lift {A} (r : result A) : M A := fun w => (r, w).

(** An external call that returns nothing. *)
Definition call (o : option exn) : M unit :=
  match o with
  | None => ret tt
  | Some e => raise e
  end.

(** [try: body / except (E1, ...) as e: h1 / except ...]: the first
    clause one of whose classes the exception is an instance of runs;
    with none, the exception goes on. *)
Fixpoint select_handler {A} (clauses : list (list exn_class * (exn -> M A)))
    (e : exn) : option (M A) :=
  match clauses with
  | [] => None
  | (classes, h) :: rest =>
      if existsb (isinstance e) classes then Some (h e)
      else select_handler rest e
  end.

Definition try_except {A} (body : M A)
    (clauses : list (list exn_class * (exn -> M A))) : M A :=
  fun w =>
    match body w with
    | (Normal a, w') => (Normal a, w')
    | (Raise e, w') =>
        match select_handler clauses e with
        | Some h => h w'
        | None => (Raise e, w')
        end
    end.

(** [for x in xs: body] *)
Fixpoint for_each {A} (xs : list A) (body : A -> M unit) : M unit :=
  match xs with
  | [] => ret tt
  | x :: rest => body x ;; for_each rest body
  end.

(** [d[k]] *)
Definition getitem {V} (d : dict V) (k : string) : M V :=
  match Dict.get k d with
  | Some v => ret v
  | None => raise (Exn KeyError ("'" ++ k ++ "'"))
  end.

Definition logging_info (msg : string) : M unit :=
  fun w => (Normal tt, with_log (log w ++ [(INFO, msg)])%list w).

Definition logging_error (msg : string) : M unit :=
  fun w => (Normal tt, with_log (log w ++ [(ERROR, msg)])%list w).

Variable env : Env.

Definition utcnow : M Z :=
  fun w => (Normal (clock env (clock_reads w)),
            with_clock_reads (S (clock_reads w)) w).

(** [boto3.Session(profile_name=..., region_name=...)] *)
Definition new_Session (profile region : string) : M Session :=
  call (boto3_Session env profile region) ;;
  ret {| profile_name := profile; region_name := region |}.

(** [session.client(service)] *)
Definition new_client (s : Session) (service : string) : M Client :=
  call (Session_client env s service) ;;
  ret {| service_name := service; session := s |}.

(** ** [get_metric_statistics] *)

Definition NA : value := VStr "N/A".

(** The keyword arguments of the call. *)
Definition metric_query (instance_id metric_name namespace : string)
    (period start_time end_time : Z) : MetricQuery :=
  {| Namespace := namespace;
     MetricName := metric_name;
     Dimensions := [("InstanceId", instance_id)];
     StartTime := start_time;
     EndTime := end_time;
     Period := period;
     Statistics := ["Average"] |}.

Definition get_metric_statistics (cloudwatch_client : Client)
    (instance_id metric_name namespace : string)
    (period start_time end_time : Z) : M value :=
  try_except
    (response <- lift (cw_get_metric_statistics env cloudwatch_client
                         (metric_query instance_id metric_name namespace
                            period start_time end_time)) ;;
     match Datapoints response with
     | Some (first :: _) =>
         ret (match Average first with
              | Some a => VFloat a
              | None => NA
              end)
     | Some [] | None => ret NA
     end)
    [ ([NoCredentialsError; PartialCredentialsError],
       fun e =>
         logging_error ("Credential error for instance " ++ instance_id
                          ++ ": " ++ exn_str e) ;;
         ret NA);
      ([BotoCoreError],
       fun e =>
         logging_error ("Error accessing AWS for instance " ++ instance_id
                          ++ ": " ++ exn_str e) ;;
         ret NA) ].

(** ** [get_instance_metrics] *)

Definition get_instance_metrics (profile region instance_id : string)
    : M (dict value) :=
  session <- new_Session profile region ;;
  cloudwatch_client <- new_client session "cloudwatch" ;;
  end_time <- utcnow ;;
  let start_time := (end_time - 10 * 60 * 1000000)%Z in
  let period := 60%Z in
  cpu_utilization <-
    get_metric_statistics cloudwatch_client instance_id
      "CPUUtilization" "AWS/EC2" period start_time end_time ;;
  memory_utilization <-
    get_metric_statistics cloudwatch_client instance_id
      "mem_used_percent" "CWAgent" period start_time end_time ;;
  threads_running <-
    get_metric_statistics cloudwatch_client instance_id
      "procstat_threads" "CWAgent" period start_time end_time ;;
  processes_running <-
    get_metric_statistics cloudwatch_client instance_id
      "procstat_processes" "CWAgent" period start_time end_time ;;
  ret (Dict.literal
         [ ("CPU Utilization", cpu_utilization);
           ("Memory Utilization", memory_utilization);
           ("Threads Running", threads_running);
           ("Processes Running", processes_running) ]).

(** ** [print_metrics] *)

Definition print_metrics (instance_id : string) (metrics : dict value)
    : M unit :=
  logging_info ("Metrics for Instance ID: " ++ instance_id) ;;
  cpu <- getitem metrics "CPU Utilization" ;;
  logging_info ("CPU Utilization: " ++ str cpu) ;;
  mem <- getitem metrics "Memory Utilization" ;;
  logging_info ("Memory Utilization: " ++ str mem) ;;
  thr <- getitem metrics "Threads Running" ;;
  logging_info ("Threads Running: " ++ str thr) ;;
  prc <- getitem metrics "Processes Running" ;;
  logging_info ("Processes Running: " ++ str prc ++ String (Ascii.ascii_of_nat 10) "").

(** ** [get_all_instances] *)

(** The two nested loops that append every ['InstanceId']. *)
Definition collect_instance_ids (response : DescribeInstances) : list string :=
  fold_left
    (fun instances reservation =>
       fold_left (fun instances instance => (instances ++ [InstanceId instance])%list)
         (Instances reservation) instances)
    (Reservations response) [].

Definition get_all_instances (profile region : string) : M (list string) :=
  session <- new_Session profile region ;;
  ec2_client <- new_client session "ec2" ;;
  try_except
    (response <- lift (describe_instances env ec2_client) ;;
     ret (collect_instance_ids response))
    [ ([NoCredentialsError; PartialCredentialsError],
       fun e =>
         logging_error ("Credential error for profile " ++ profile
                          ++ ": " ++ exn_str e) ;;
         ret []);
      ([BotoCoreError],
       fun e =>
         logging_error ("Error accessing AWS for profile " ++ profile
                          ++ ": " ++ exn_str e) ;;
         ret []) ].

(** ** [export_to_excel] *)

(** [pd.DataFrame(data)] for a list of dicts: the columns are the keys
    in order of first appearance over the rows, and a row has the
    missing value where its dict lacks the column. The empty list gives
    a frame without columns. *)
Definition add_column (cols : list string) (k : string) : list string :=
  if existsb (String.eqb k) cols then cols else (cols ++ [k])%list.

Definition union_keys (data : list (dict value)) : list string :=
  fold_left (fun cols row => fold_left add_column (Dict.keys row) cols) data [].

Definition pd_DataFrame (data : list (dict value)) : DataFrame :=
  let cols := union_keys data in
  {| columns := cols;
     rows := map (fun row => map (fun c => Dict.get c row) cols) data |}.

(** [df.to_excel(filename, index=False)]: replaces the file. *)
Definition to_excel (df : DataFrame) (filename : string) : M unit :=
  call (file_write env filename) ;;
  fun w => (Normal tt, with_files (<[filename := df]> (files w)) w).

Definition export_to_excel (data : list (dict value)) (filename : string)
    : M string :=
  let df := pd_DataFrame data in
  to_excel df filename ;;
  logging_info ("Data exported to " ++ filename) ;;
  ret filename.

(** Reading the spreadsheet back ([pd.read_excel]): the header row
    gives the columns, the other rows are the data. *)
Definition read_excel (filename : string) (w : World) : option DataFrame :=
  files w !! filename.

(** ** [send_email] *)

(** [load_dotenv()] adds the variables of [.env] that the process does
    not have yet. *)
Definition load_dotenv : M unit :=
  fun w => (Normal tt, with_environ (environ w ∪ dotenv env) w).

Definition getenv (name : string) : M (option string) :=
  fun w => (Normal (environ w !! name), w).

(** [open(path, 'rb').read()] *)
Definition read_file (path : string) : M DataFrame :=
  fun w =>
    match files w !! path with
    | Some content => (Normal content, w)
    | None =>
        (Raise (Exn OSError ("No such file or directory: '" ++ path ++ "'")), w)
    end.

Fixpoint has_slash (p : string) : bool :=
  match p with
  | EmptyString => false
  | String c rest => if Ascii.eqb c (Ascii.ascii_of_nat 47) then true else has_slash rest
  end.

(** [os.path.basename]: what follows the last slash. *)
Fixpoint basename (p : string) : string :=
  match p with
  | EmptyString => EmptyString
  | String c rest => if has_slash p then basename rest else p
  end.

(** [with smtplib.SMTP(host, port) as server: body]. Leaving the block
    sends QUIT also when the body raised; an error of QUIT replaces the
    body's ([SMTP_quit = None] also stands for the server that has
    already hung up, which [__exit__] ignores). *)
Definition with_SMTP {A} (host : string) (port : Z) (body : M A) : M A :=
  call (SMTP_connect env host port) ;;
  fun w =>
    let (r, w') := body w in
    match SMTP_quit env with
    | Some e => (Raise e, w')
    | None => (r, w')
    end.

Definition send_message (msg : email) : M unit :=
  call (SMTP_send_message env msg) ;;
  fun w => (Normal tt, with_outbox (outbox w ++ [msg])%list w).

Definition send_email (subject body : string) (to_email : option string)
    (attachment_file : string) : M unit :=
  load_dotenv ;;
  from_email <- getenv "EMAIL_SOURCE" ;;
  from_password <- getenv "EMAIL_PASSWORD" ;;
  let smtp_server := "smtp.gmail.com" in
  let smtp_port := 587%Z in
  logging_info ("Sending email from: " ++ str_opt from_email
                  ++ " to: " ++ str_opt to_email) ;;
  payload <- read_file attachment_file ;;
  let msg :=
    {| msg_From := from_email;
       msg_To := to_email;
       msg_Subject := subject;
       msg_body := body;
       attachment_filename := basename attachment_file;
       attachment_payload := payload |} in
  with_SMTP smtp_server smtp_port
    (call (SMTP_starttls env) ;;
     call (SMTP_login env from_email from_password) ;;
     send_message msg) ;;
  logging_info ("Email sent to " ++ str_opt to_email
                  ++ " with attachment: " ++ attachment_file).

(** ** The script body *)

Definition get_metrics_report : M (list (dict value)) :=
  fun w => (Normal (metrics_report w), w).

Definition set_metrics_report (r : list (dict value)) : M unit :=
  fun w => (Normal tt, with_metrics_report r w).

(** [metrics_report.append(row)] *)
Definition metrics_report_append (row : dict value) : M unit :=
  fun w => (Normal tt, with_metrics_report (metrics_report w ++ [row])%list w).

(** The body of [for instance_id in instance_ids]. *)
Definition instance_body (profile region instance_id : string) : M unit :=
  metrics <- get_instance_metrics profile region instance_id ;;
  print_metrics instance_id metrics ;;
  cpu <- getitem metrics "CPU Utilization" ;;
  mem <- getitem metrics "Memory Utilization" ;;
  thr <- getitem metrics "Threads Running" ;;
  prc <- getitem metrics "Processes Running" ;;
  metrics_report_append
    (Dict.literal
       [ ("Profile", VStr profile);
         ("Region", VStr region);
         ("Instance ID", VStr instance_id);
         ("CPU Utilization", cpu);
         ("Memory Utilization", mem);
         ("Threads Running", thr);
         ("Processes Running", prc) ]).

(** The body of [for profile, region in all_profiles.items()]. *)
Definition profile_body (item : string * string) : M unit :=
  let (profile, region) := item in
  logging_info ("Checking metrics for profile: " ++ profile
                  ++ " in region: " ++ region) ;;
  instance_ids <- get_all_instances profile region ;;
  for_each instance_ids (instance_body profile region).

(** Lines 155-175: the report is built. *)
Definition build_report : M unit :=
  all_profiles <- lift (get_profiles (aws_config env)) ;;
  set_metrics_report [] ;;
  for_each (Dict.items all_profiles) profile_body.

Definition REPORT_FILE : string := "ec2_metrics_report.xlsx".

(** Lines 177-183: the report is exported and mailed. *)
Definition deliver_report : M unit :=
  data <- get_metrics_report ;;
  report_file <- export_to_excel data REPORT_FILE ;;
  let email_body := "Please find attached the EC2 metrics report." in
  recipient_email <- getenv "EMAIL_RECIPIENT" ;;
  send_email "EC2 Metrics Report" email_body recipient_email report_file.

Definition main : M unit :=
  build_report ;;
  deliver_report.

End Report.

Arguments value : clear implicits.
Arguments DataFrame : clear implicits.
Arguments email : clear implicits.
Arguments World : clear implicits.
Arguments Datapoint : clear implicits.
Arguments MetricStatistics : clear implicits.
Arguments Env : clear implicits.
Arguments M : clear implicits.

Notation "x <- m ;; k" := (bind m (fun x => k))
  (at level 100, m at next level, k at level 200, right associativity)
  : py_scope.
Notation "m ;; k" := (bind m (fun _ => k))
  (at level 100, k at level 200, right associativity) : py_scope.


(** * Vocabulary of the properties *)

Section Vocabulary.

Context {float : Type} `{!PyFloat float}.

Implicit Types (env : Env float) (w : World float).

(** ** Outcomes of a computation

    [wp m w Q E]: run from [w], [m] either returns a value and a world
    that satisfy [Q], or raises an exception in a world that satisfy [E]. *)
Definition wp {A} (m : M float A) (w : World float)
    (Q : A -> World float -> Prop) (E : exn -> World float -> Prop) : Prop :=
  match m w with
  | (Normal a, w') => Q a w'
  | (Raise e, w') => E e w'
  end.

(** [m] returns, with [Q]. *)
Definition returns {A} (m : M float A) (w : World float)
    (Q : A -> World float -> Prop) : Prop :=
  wp m w Q (fun _ _ => False).

(** Two worlds that have the same report and have read the clock the
    same number of times; whatever else they hold may differ. *)
Definition aligned (w1 w2 : World float) : Prop :=
  metrics_report w1 = metrics_report w2 /\ clock_reads w1 = clock_reads w2.

(** Two computations that, started in aligned worlds, end the same way
    (the same value or the same exception) in aligned worlds. *)
Definition same_outcome {A} (m1 m2 : M float A) : Prop :=
  forall w1 w2,
    aligned w1 w2 ->
    fst (m1 w1) = fst (m2 w2) /\ aligned (snd (m1 w1)) (snd (m2 w2)).

(** [w'] is [w] after [n] more readings of the clock and with [new_rows]
    appended to the report; the log may have grown. *)
Definition quiet (w w' : World float) (n : nat)
    (new_rows : list (dict (value float))) : Prop :=
  clock_reads w' = n + clock_reads w /\
  files w' = files w /\
  environ w' = environ w /\
  outbox w' = outbox w /\
  metrics_report w' = (metrics_report w ++ new_rows)%list.

(** A computation that leaves the report as it is, however it ends. *)
Definition keeps_report {A} (m : M float A) : Prop :=
  forall w, metrics_report (snd (m w)) = metrics_report w.

(** ** Metric samples *)

(** What the script makes of one answer of [GetMetricStatistics]. *)
Definition sample_of (answer : result (MetricStatistics float)) : value float :=
  match answer with
  | Normal response =>
      match Datapoints response with
      | Some (first :: _) =>
          match Average first with
          | Some a => VFloat a
          | None => NA
          end
      | _ => NA
      end
  | Raise _ => NA
  end.


(** The answers the [except] clauses of the script deal with. *)
Definition handled {A} (answer : result A) : Prop :=
  match answer with
  | Normal _ => True
  | Raise e => isinstance e BotoCoreError = true
  end.

(** The record the matching [except] clause logs. *)
Definition error_record (what subject : string) (e : exn) : levelname * string :=
  if isinstance e NoCredentialsError || isinstance e PartialCredentialsError
  then (ERROR, "Credential error for " ++ what ++ " " ++ subject ++ ": " ++ exn_str e)
  else (ERROR, "Error accessing AWS for " ++ what ++ " " ++ subject ++ ": " ++ exn_str e).

Definition error_records {A} (what subject : string) (answer : result A)
    : list (levelname * string) :=
  match answer with
  | Normal _ => []
  | Raise e => [error_record what subject e]
  end.

(** A float, or the marker. *)
Definition is_sample (v : value float) : Prop :=
  v = NA \/ exists x, v = VFloat x.

(** ** Rows *)

Definition METRICS : list string :=
  ["CPU Utilization"; "Memory Utilization"; "Threads Running"; "Processes Running"].

Definition SCHEMA : list string :=
  (["Profile"; "Region"; "Instance ID"] ++ METRICS)%list.

(** The metrics of one instance: the four keys, each with a sample. *)
Definition metrics_ok (metrics : dict (value float)) : Prop :=
  Dict.keys metrics = METRICS /\
  forall m, In m METRICS -> exists v, Dict.get m metrics = Some v /\ is_sample v.

(** A row of the report: the three identifying keys, then the four
    metric keys, each with a sample. *)
Definition row_ok (row : dict (value float)) : Prop :=
  Dict.keys row = SCHEMA /\
  forall m, In m METRICS -> exists v, Dict.get m row = Some v /\ is_sample v.

Definition row_key (row : dict (value float))
    : option (value float) * option (value float) * option (value float) :=
  (Dict.get "Profile" row, Dict.get "Region" row, Dict.get "Instance ID" row).

(** ** The report as a nested comprehension *)

Definition session_of (profile region : string) : Session :=
  {| profile_name := profile; region_name := region |}.

Definition ec2_client (profile region : string) : Client :=
  {| service_name := "ec2"; session := session_of profile region |}.

Definition cloudwatch_client (profile region : string) : Client :=
  {| service_name := "cloudwatch"; session := session_of profile region |}.

(** The instance ids [get_all_instances] finds when its clients can be
    made: those of the reply, none after an exception. *)
Definition discovered env (profile region : string) : list string :=
  match describe_instances env (ec2_client profile region) with
  | Normal response => collect_instance_ids response
  | Raise _ => []
  end.

(** The sample of one metric of one instance, queried at time [now]. *)
Definition metric_sample env (profile region instance_id : string)
    (metric_name namespace : string) (now : Z) : value float :=
  sample_of
    (cw_get_metric_statistics env (cloudwatch_client profile region)
       (metric_query instance_id metric_name namespace 60
          (now - 10 * 60 * 1000000) now)).

Definition expected_metrics env (profile region instance_id : string) (now : Z)
    : dict (value float) :=
  [ ("CPU Utilization",
      metric_sample env profile region instance_id "CPUUtilization" "AWS/EC2" now);
    ("Memory Utilization",
      metric_sample env profile region instance_id "mem_used_percent" "CWAgent" now);
    ("Threads Running",
      metric_sample env profile region instance_id "procstat_threads" "CWAgent" now);
    ("Processes Running",
      metric_sample env profile region instance_id "procstat_processes" "CWAgent" now) ].

Definition expected_row env (profile region instance_id : string) (now : Z)
    : dict (value float) :=
  ([ ("Profile", VStr profile);
     ("Region", VStr region);
     ("Instance ID", VStr instance_id) ]
   ++ expected_metrics env profile region instance_id now)%list.

(** The rows of one profile; the [n]-th reading of the clock is the
    next one. *)
Fixpoint expected_instance_rows env (profile region : string)
    (instance_ids : list string) (n : nat) : list (dict (value float)) :=
  match instance_ids with
  | [] => []
  | instance_id :: rest =>
      expected_row env profile region instance_id (clock env n)
        :: expected_instance_rows env profile region rest (S n)
  end.

Fixpoint expected_report env (profiles : list (string * string)) (n : nat)
    : list (dict (value float)) :=
  match profiles with
  | [] => []
  | (profile, region) :: rest =>
      let instance_ids := discovered env profile region in
      (expected_instance_rows env profile region instance_ids n
         ++ expected_report env rest (n + length instance_ids))%list
  end.

(** Discovery order: profile by profile, instance by instance. *)
Definition discovery_order env (profiles : list (string * string))
    : list (string * string * string) :=
  flat_map
    (fun item =>
       map (fun instance_id => (fst item, snd item, instance_id))
         (discovered env (fst item) (snd item)))
    profiles.

Definition key_of (k : string * string * string)
    : option (value float) * option (value float) * option (value float) :=
  (Some (VStr (fst (fst k))), Some (VStr (snd (fst k))), Some (VStr (snd k))).

(** Every call made for the instances of a profile is dealt with: the
    clients can be made and each answer is a reply or an exception of
    the [BotoCoreError] family. *)
Definition enumerable env (item : string * string) : Prop :=
  boto3_Session env (fst item) (snd item) = None /\
  Session_client env (session_of (fst item) (snd item)) "ec2" = None /\
  handled (describe_instances env (ec2_client (fst item) (snd item))).

Definition measurable env (item : string * string) : Prop :=
  discovered env (fst item) (snd item) = [] \/
  (Session_client env (session_of (fst item) (snd item)) "cloudwatch" = None /\
   forall q, handled (cw_get_metric_statistics env
                        (cloudwatch_client (fst item) (snd item)) q)).

(** Two answers of the metric query that read alike: the same sample
    (the timestamps and the later datapoints may differ), or the same
    exception. *)
Definition same_reading (a1 a2 : result (MetricStatistics float)) : Prop :=
  match a1, a2 with
  | Normal _, Normal _ => sample_of a1 = sample_of a2
  | Raise e1, Raise e2 => e1 = e2
  | _, _ => False
  end.

(** The query [get_instance_metrics] makes for a metric after the
    [n]-th reading of the clock. *)
Definition query_at env (n : nat) (instance_id metric_name namespace : string)
    : MetricQuery :=
  metric_query instance_id metric_name namespace 60
    (clock env n - 10 * 60 * 1000000) (clock env n).

(** The three sources of the report return the same in two runs: the
    profile store gives the same profiles, sessions, clients and
    listings answer the same, and the metric queries made after the
    [n]-th reading of the clock of either run read alike. The two
    clocks, and the answers at other times, may differ. *)
Definition same_sources (env1 env2 : Env float) : Prop :=
  get_profiles (aws_config env1) = get_profiles (aws_config env2) /\
  (forall p r, boto3_Session env1 p r = boto3_Session env2 p r) /\
  (forall s service, Session_client env1 s service = Session_client env2 s service) /\
  (forall c, describe_instances env1 c = describe_instances env2 c) /\
  (forall n c i metric_name namespace,
     same_reading
       (cw_get_metric_statistics env1 c (query_at env1 n i metric_name namespace))
       (cw_get_metric_statistics env2 c (query_at env2 n i metric_name namespace))).

(** A profile that has an instance to report. *)
Definition has_instances env (item : string * string) : bool :=
  match discovered env (fst item) (snd item) with
  | [] => false
  | _ :: _ => true
  end.

(** ** Profiles *)

(** The region of a section: its own, else the one it inherits from
    [DEFAULT], else the region [d] of the section named [default]. *)
Definition resolved_region (config : ConfigParser) (d : string)
    (own : dict string) : string :=
  match Dict.get "region" own with
  | Some v => v
  | None =>
      match Dict.get "region" (defaults config) with
      | Some v => v
      | None => d
      end
  end.

(** No region of the store, of a section or under [DEFAULT], holds a
    [%]: interpolation leaves such values as they are. *)
Definition plain_regions (config : ConfigParser) : Prop :=
  (forall v, Dict.get "region" (defaults config) = Some v -> has_percent v = false)
  /\ (forall s own v,
        Dict.get s (sections config) = Some own ->
        Dict.get "region" own = Some v ->
        has_percent v = false).

(** ** Delivery *)

Definition from_email_of env w : option string :=
  (environ w ∪ dotenv env) !! "EMAIL_SOURCE".

Definition from_password_of env w : option string :=
  (environ w ∪ dotenv env) !! "EMAIL_PASSWORD".

(** The message [main] hands to the server for the report [data]. *)
Definition report_message env w (data : list (dict (value float))) : email float :=
  {| msg_From := from_email_of env w;
     msg_To := environ w !! "EMAIL_RECIPIENT";
     msg_Subject := "EC2 Metrics Report";
     msg_body := "Please find attached the EC2 metrics report.";
     attachment_filename := REPORT_FILE;
     attachment_payload := pd_DataFrame data |}.

(** The mail dialogue for [msg] fails with [e] at its first failing
    step: the connection, STARTTLS, the login, or the message itself. *)
Inductive delivery_fails env w (msg : email float) (e : exn) : Prop :=
  | connect_fails :
      SMTP_connect env "smtp.gmail.com" 587 = Some e ->
      delivery_fails env w msg e
  | starttls_fails :
      SMTP_connect env "smtp.gmail.com" 587 = None ->
      SMTP_starttls env = Some e ->
      delivery_fails env w msg e
  | login_fails :
      SMTP_connect env "smtp.gmail.com" 587 = None ->
      SMTP_starttls env = None ->
      SMTP_login env (from_email_of env w) (from_password_of env w) = Some e ->
      delivery_fails env w msg e
  | send_message_fails :
      SMTP_connect env "smtp.gmail.com" 587 = None ->
      SMTP_starttls env = None ->
      SMTP_login env (from_email_of env w) (from_password_of env w) = None ->
      SMTP_send_message env msg = Some e ->
      delivery_fails env w msg e.

(** The server takes the connection, STARTTLS and the login. *)
Definition server_accepts_login env w : Prop :=
  SMTP_connect env "smtp.gmail.com" 587 = None /\
  SMTP_starttls env = None /\
  SMTP_login env (from_email_of env w) (from_password_of env w) = None.

(** ** What building the report leaves alone *)

(** [w'] has the files, the process environment and the outbox of [w]. *)
Definition untouched (w w' : World float) : Prop :=
  files w' = files w /\ environ w' = environ w /\ outbox w' = outbox w.

(** A computation that, however it ends, writes no file, changes no
    environment variable and sends no mail. *)
Definition keeps_outside {A} (m : M float A) : Prop :=
  forall w, untouched w (snd (m w)).

(** [w'] is [w] with more records in its log, and nothing else changed. *)
Definition only_logged (w w' : World float) : Prop :=
  exists records, w' = with_log (log w ++ records)%list w.

(** ** The four queries of an instance *)

(** Metric name and namespace of the queries [get_instance_metrics]
    makes, in the order it makes them. *)
Definition QUERIES : list (string * string) :=
  [ ("CPUUtilization", "AWS/EC2");
    ("mem_used_percent", "CWAgent");
    ("procstat_threads", "CWAgent");
    ("procstat_processes", "CWAgent") ].

(** The answer to one of them for an instance, asked at time [now]. *)
Definition instance_answer env (profile region instance_id : string) (now : Z)
    (query : string * string) : result (MetricStatistics float) :=
  cw_get_metric_statistics env (cloudwatch_client profile region)
    (metric_query instance_id (fst query) (snd query) 60
       (now - 10 * 60 * 1000000) now).

End Vocabulary.

(** * A sample deployment

    Concrete stores, answers and worlds on which the properties below
    are exercised. Floats are kept as the text Python prints for them. *)

Module Sample.

#[export] Instance float_text : PyFloat string := fun s => s.

(** [[default]] with a region, a profile with its own region, and a
    profile without one. *)
Definition typical_config : ConfigParser :=
  {| defaults := [];
     sections :=
       [ ("default", [("region", "us-east-1"); ("output", "json")]);
         ("profile dev", [("region", "eu-west-1")]);
         ("profile bare", [("output", "text")]) ] |}.

(** A store whose only section has a region of its own. *)
Definition no_default_config : ConfigParser :=
  {| defaults := [];
     sections := [ ("profile dev", [("region", "eu-west-1")]) ] |}.

(** [default] has one instance, [profile dev] has no credentials, any
    other profile has no instance. *)
Definition sample_describe (c : Client) : result DescribeInstances :=
  if String.eqb (profile_name (session c)) "default" then
    Normal {| Reservations :=
                [ {| Instances := [] |};
                  {| Instances := [ {| InstanceId := "i-abc123" |} ] |} ] |}
  else if String.eqb (profile_name (session c)) "profile dev" then
    Raise (Exn NoCredentialsError "Unable to locate credentials")
  else
    Normal {| Reservations := [] |}.

(** The host agent is not installed: the CPU series has two datapoints,
    the memory series none, the thread query cannot reach the endpoint,
    and the process series has a datapoint without average. *)
Definition sample_metrics (c : Client) (q : MetricQuery)
    : result (MetricStatistics string) :=
  if String.eqb (MetricName q) "CPUUtilization" then
    Normal {| Datapoints :=
                Some [ {| Timestamp := EndTime q; Average := Some "12.5" |};
                       {| Timestamp := StartTime q; Average := Some "99.0" |} ] |}
  else if String.eqb (MetricName q) "mem_used_percent" then
    Normal {| Datapoints := Some [] |}
  else if String.eqb (MetricName q) "procstat_threads" then
    Raise (Exn BotoCoreError "Could not connect to the endpoint URL")
  else
    Normal {| Datapoints :=
                Some [ {| Timestamp := EndTime q; Average := None |} ] |}.

(** The agent is installed: every series has a datapoint. *)
Definition agent_metrics (c : Client) (q : MetricQuery)
    : result (MetricStatistics string) :=
  Normal {| Datapoints :=
              Some [ {| Timestamp := EndTime q;
                        Average :=
                          Some (if String.eqb (MetricName q) "CPUUtilization" then "12.5"
                                else if String.eqb (MetricName q) "mem_used_percent" then "40.2"
                                else if String.eqb (MetricName q) "procstat_threads" then "8.0"
                                else "3.0") |} ] |}.

(** No profile has an instance. *)
Definition idle_describe (c : Client) : result DescribeInstances :=
  if String.eqb (profile_name (session c)) "profile dev" then
    Raise (Exn NoCredentialsError "Unable to locate credentials")
  else
    Normal {| Reservations := [ {| Instances := [] |} ] |}.

(** smtplib sends a message to the recipients its headers name; a
    message that names none is refused before the server is asked
    ([SMTPRecipientsRefused], an [SMTPException] whose text is the
    table of the refused recipients, here empty). *)
Definition accepts_addressed (msg : email string) : option exn :=
  match msg_To msg with
  | Some _ => None
  | None => Some (Exn SMTPException "{}")
  end.

Definition sample_env (config : option ConfigParser)
    (describe : Client -> result DescribeInstances)
    (metrics : Client -> MetricQuery -> result (MetricStatistics string))
    (now : nat -> Z) (login : option exn) : Env string :=
  {| aws_config := config;
     clock := now;
     boto3_Session := fun _ _ => None;
     Session_client := fun _ _ => None;
     describe_instances := describe;
     cw_get_metric_statistics := metrics;
     file_write := fun _ => None;
     dotenv := {[ "EMAIL_SOURCE" := "reports@example.com";
                  "EMAIL_PASSWORD" := "app-token" ]};
     SMTP_connect := fun _ _ => None;
     SMTP_starttls := None;
     SMTP_login := fun _ _ => login;
     SMTP_send_message := accepts_addressed;
     SMTP_quit := None |}.

Definition morning (n : nat) : Z := (1700000000000000 + Z.of_nat n * 2000000)%Z.
Definition evening (n : nat) : Z := (1700040000000000 + Z.of_nat n * 3000000)%Z.

Definition env0 : Env string :=
  sample_env (Some typical_config) sample_describe sample_metrics morning None.

(** The same sources at another time of day. *)
Definition env0_later : Env string :=
  sample_env (Some typical_config) sample_describe sample_metrics evening None.

(** The mail server rejects the login. *)
Definition env_bad_login : Env string :=
  sample_env (Some typical_config) sample_describe sample_metrics morning
    (Some (Exn SMTPException "(535, b'5.7.8 Username and Password not accepted')")).

(** No configuration file at all. *)
Definition env_no_config : Env string :=
  sample_env None sample_describe sample_metrics morning None.

(** One profile, one instance, agent installed. *)
Definition env_agent : Env string :=
  sample_env (Some {| defaults := [];
                      sections := [ ("default", [("region", "us-east-1")]) ] |})
    sample_describe agent_metrics morning None.

(** Three profiles, none with an instance. *)
Definition env_idle : Env string :=
  sample_env (Some typical_config) idle_describe sample_metrics morning None.

(** The process has just started. *)
Definition w0 : World string :=
  {| log := [];
     clock_reads := 0;
     files := ∅;
     environ := {[ "EMAIL_RECIPIENT" := "ops@example.com" ]};
     outbox := [];
     metrics_report := [] |}.

Definition i_abc123_client : Client := cloudwatch_client "default" "us-east-1".

(** CloudWatch throttles the memory query: a [ClientError], which is
    not a [BotoCoreError]. *)
Definition throttled_metrics (c : Client) (q : MetricQuery)
    : result (MetricStatistics string) :=
  if String.eqb (MetricName q) "mem_used_percent" then
    Raise (Exn ClientError "An error occurred (Throttling) when calling the GetMetricStatistics operation")
  else sample_metrics c q.

Definition env_throttled : Env string :=
  sample_env (Some typical_config) sample_describe throttled_metrics morning None.

(** boto3 does not know the profile [profile dev]. *)
Definition env_unknown_profile : Env string :=
  {| aws_config := Some typical_config;
     clock := morning;
     boto3_Session :=
       fun profile _ =>
         if String.eqb profile "profile dev"
         then Some (Exn BotoCoreError "The config profile (profile dev) could not be found")
         else None;
     Session_client := fun _ _ => None;
     describe_instances := sample_describe;
     cw_get_metric_statistics := sample_metrics;
     file_write := fun _ => None;
     dotenv := dotenv env0;
     SMTP_connect := fun _ _ => None;
     SMTP_starttls := None;
     SMTP_login := fun _ _ => None;
     SMTP_send_message := accepts_addressed;
     SMTP_quit := None |}.

(** The working directory is read-only. *)
Definition env_read_only : Env string :=
  {| aws_config := Some typical_config;
     clock := morning;
     boto3_Session := fun _ _ => None;
     Session_client := fun _ _ => None;
     describe_instances := sample_describe;
     cw_get_metric_statistics := sample_metrics;
     file_write := fun path => Some (Exn OSError ("Permission denied: '" ++ path ++ "'"));
     dotenv := dotenv env0;
     SMTP_connect := fun _ _ => None;
     SMTP_starttls := None;
     SMTP_login := fun _ _ => None;
     SMTP_send_message := accepts_addressed;
     SMTP_quit := None |}.

(** The recipient is set in [.env] only. *)
Definition env_recipient_in_dotenv : Env string :=
  {| aws_config := Some typical_config;
     clock := morning;
     boto3_Session := fun _ _ => None;
     Session_client := fun _ _ => None;
     describe_instances := sample_describe;
     cw_get_metric_statistics := sample_metrics;
     file_write := fun _ => None;
     dotenv := {[ "EMAIL_SOURCE" := "reports@example.com";
                  "EMAIL_PASSWORD" := "app-token";
                  "EMAIL_RECIPIENT" := "ops@example.com" ]};
     SMTP_connect := fun _ _ => None;
     SMTP_starttls := None;
     SMTP_login := fun _ _ => None;
     SMTP_send_message := accepts_addressed;
     SMTP_quit := None |}.

(** A process started without any mail variable. *)
Definition w_bare : World string :=
  {| log := [];
     clock_reads := 0;
     files := ∅;
     environ := ∅;
     outbox := [];
     metrics_report := [] |}.

(** A process whose environment names another sender than [.env], and
    that finds an old report and a note on disk. *)
Definition w_used : World string :=
  {| log := [];
     clock_reads := 0;
     files := {[ "ec2_metrics_report.xlsx" := {| columns := ["old"]; rows := [] |};
                 "notes.xlsx" := {| columns := ["note"]; rows := [[Some (VStr "keep")]] |} ]};
     environ := {[ "EMAIL_SOURCE" := "override@example.com";
                   "EMAIL_RECIPIENT" := "ops@example.com" ]};
     outbox := [];
     metrics_report := [] |}.

(** A reply with two reservations. *)
Definition two_reservations : DescribeInstances :=
  {| Reservations :=
       [ {| Instances := [ {| InstanceId := "i-1" |}; {| InstanceId := "i-2" |} ] |};
         {| Instances := [] |};
         {| Instances := [ {| InstanceId := "i-3" |} ] |} ] |}.

Definition env_two_reservations : Env string :=
  sample_env (Some typical_config) (fun _ => Normal two_reservations)
    sample_metrics morning None.

(** A store whose section [default] has no region. *)
Definition default_without_region_config : ConfigParser :=
  {| defaults := [];
     sections :=
       [ ("default", [("output", "json")]);
         ("profile dev", [("region", "eu-west-1")]) ] |}.

(** A store whose sections inherit a region from [DEFAULT]. *)
Definition inheriting_config : ConfigParser :=
  {| defaults := [("region", "ap-south-1")];
     sections :=
       [ ("default", [("region", "us-east-1")]);
         ("profile dev", [("region", "eu-west-1")]);
         ("profile bare", [("output", "text")]) ] |}.

(** A store whose profile [profile dev] has a region with a stray [%]. *)
Definition percent_config : ConfigParser :=
  {| defaults := [];
     sections :=
       [ ("default", [("region", "us-east-1")]);
         ("profile dev", [("region", "eu%west")]);
         ("profile bare", [("output", "text")]) ] |}.

(** The listing of [profile dev] is refused by the service: a
    [ClientError], which is not a [BotoCoreError]. *)
Definition unauthorized_describe (c : Client) : result DescribeInstances :=
  if String.eqb (profile_name (session c)) "profile dev" then
    Raise (Exn ClientError
             "An error occurred (AuthFailure) when calling the DescribeInstances operation: AWS was not able to validate the provided access credentials")
  else sample_describe c.

Definition env_auth_failure : Env string :=
  sample_env (Some typical_config) unauthorized_describe sample_metrics morning None.

(** The credentials of [profile dev] lack the secret key: no client can
    be made for it. *)
Definition env_partial_credentials : Env string :=
  {| aws_config := Some typical_config;
     clock := morning;
     boto3_Session := fun _ _ => None;
     Session_client :=
       fun s _ =>
         if String.eqb (profile_name s) "profile dev"
         then Some (Exn PartialCredentialsError
                      "Partial credentials found in shared-credentials-file, missing: aws_secret_access_key")
         else None;
     describe_instances := sample_describe;
     cw_get_metric_statistics := sample_metrics;
     file_write := fun _ => None;
     dotenv := dotenv env0;
     SMTP_connect := fun _ _ => None;
     SMTP_starttls := None;
     SMTP_login := fun _ _ => None;
     SMTP_send_message := accepts_addressed;
     SMTP_quit := None |}.

(** A fleet of four profiles: [default] with three instances in two
    reservations, [profile dev] without credentials, [profile idle]
    without instance, and [profile batch], which inherits its region,
    with one instance. *)
Definition fleet_config : ConfigParser :=
  {| defaults := [("output", "json")];
     sections :=
       [ ("default", [("region", "us-east-1")]);
         ("profile dev", [("region", "eu-west-1")]);
         ("profile idle", [("region", "eu-west-1")]);
         ("profile batch", []) ] |}.

Definition fleet_profiles : list (string * string) :=
  [ ("default", "us-east-1"); ("profile dev", "eu-west-1");
    ("profile idle", "eu-west-1"); ("profile batch", "us-east-1") ].

Definition fleet_describe (c : Client) : result DescribeInstances :=
  if String.eqb (profile_name (session c)) "default" then Normal two_reservations
  else if String.eqb (profile_name (session c)) "profile dev" then
    Raise (Exn NoCredentialsError "Unable to locate credentials")
  else if String.eqb (profile_name (session c)) "profile idle" then
    Normal {| Reservations := [ {| Instances := [] |} ] |}
  else
    Normal {| Reservations := [ {| Instances := [ {| InstanceId := "i-9" |} ] |} ] |}.

(** The CPU load changes from one time window to the next: it is high
    in every other window of length [step] counted from [start]. *)
Definition drifting_metrics (start step : Z) (c : Client) (q : MetricQuery)
    : result (MetricStatistics string) :=
  if String.eqb (MetricName q) "CPUUtilization" then
    Normal {| Datapoints :=
                Some [ {| Timestamp := EndTime q;
                          Average :=
                            Some (if Z.even ((EndTime q - start) / step)
                                  then "12.5" else "87.5") |} ] |}
  else sample_metrics c q.

Definition env_fleet : Env string :=
  sample_env (Some fleet_config) fleet_describe
    (drifting_metrics (morning 0) 2000000) morning None.

(** The same fleet, with the same load from window to window, later
    in the day, on a slower clock and with a mail server that rejects
    the login. *)
Definition env_fleet_later : Env string :=
  sample_env (Some fleet_config) fleet_describe
    (drifting_metrics (evening 0) 3000000) evening
    (Some (Exn SMTPException "(535, b'5.7.8 Username and Password not accepted')")).

End Sample.

(** * Lemmas *)

Arguments get_metric_statistics : simpl never.
Arguments get_instance_metrics : simpl never.
Arguments get_all_instances : simpl never.
Arguments print_metrics : simpl never.
Arguments instance_body : simpl never.
Arguments profile_body : simpl never.
Arguments export_to_excel : simpl never.
Arguments send_email : simpl never.
Arguments new_Session : simpl never.
Arguments new_client : simpl never.

(** ** Dictionaries *)

Section DictFacts.

Context {V : Type}.

Implicit Types (d : dict V) (k : string) (v : V).

Lemma get_set_eq k v d : Dict.get k (Dict.set k v d) = Some v.
Proof.
  induction d as [|[k' v'] d IH]; simpl.
  - rewrite String.eqb_refl. reflexivity.
  - destruct (String.eqb k k') eqn:Hk; simpl.
    + rewrite String.eqb_refl. reflexivity.
    + rewrite Hk. exact IH.
Qed.

Lemma get_set_ne k k' v d :
  k <> k' -> Dict.get k' (Dict.set k v d) = Dict.get k' d.
Proof.
  intros Hne. induction d as [|[k0 v0] d IH]; simpl.
  - destruct (String.eqb_spec k' k); [congruence | reflexivity].
  - destruct (String.eqb_spec k k0) as [->|Hk0]; simpl.
    + destruct (String.eqb_spec k' k0); [congruence | reflexivity].
    + destruct (String.eqb_spec k' k0); [reflexivity | exact IH].
Qed.

Lemma get_None_not_In k d : Dict.get k d = None <-> ~ In k (Dict.keys d).
Proof.
  induction d as [|[k' v'] d IH]; simpl.
  - split; auto.
  - destruct (String.eqb_spec k k') as [->|Hne].
    + split; [discriminate | intros Hn; exfalso; apply Hn; left; reflexivity].
    + rewrite IH. split.
      * intros Hn [Heq|Hin]; [congruence | exact (Hn Hin)].
      * intros Hn Hin. apply Hn. right. exact Hin.
Qed.

Lemma In_keys_get k d : In k (Dict.keys d) -> exists v, Dict.get k d = Some v.
Proof.
  intros Hin. destruct (Dict.get k d) as [v|] eqn:Hg; [eauto|].
  apply get_None_not_In in Hg. contradiction.
Qed.

Lemma get_Some_In_keys k v d : Dict.get k d = Some v -> In k (Dict.keys d).
Proof.
  intros Hg. destruct (in_dec string_dec k (Dict.keys d)) as [Hin|Hn]; [exact Hin|].
  apply get_None_not_In in Hn. congruence.
Qed.

Lemma keys_set_new k v d :
  Dict.get k d = None -> Dict.keys (Dict.set k v d) = (Dict.keys d ++ [k])%list.
Proof.
  unfold Dict.keys. induction d as [|[k' v'] d IH]; simpl; [reflexivity|].
  destruct (String.eqb k k'); [discriminate|].
  intros Hg. simpl. rewrite IH by exact Hg. reflexivity.
Qed.

End DictFacts.

(** ** [get_profiles] *)

Lemma get_profiles_missing_file : get_profiles None = Normal [].
Proof. reflexivity. Qed.

Lemma string_app_nil_r (s : string) : (s ++ "")%string = s.
Proof.
  induction s as [|c s IH]; [reflexivity|].
  change (String c (s ++ "")%string = String c s). rewrite IH. reflexivity.
Qed.

Lemma string_app_assoc (s t u : string) :
  ((s ++ t) ++ u)%string = (s ++ t ++ u)%string.
Proof.
  induction s as [|c s IH]; [reflexivity|].
  change (String c ((s ++ t) ++ u)%string = String c (s ++ t ++ u)%string).
  rewrite IH. reflexivity.
Qed.

(** A value without [%] comes out of the interpolation as it is. *)
Lemma interpolate_loop_plain nested opt section rawval map v :
  has_percent v = false ->
  forall passes accum,
    (String.length v <= passes)%nat ->
    interpolate_loop nested opt section rawval map passes v accum
    = Normal (accum ++ v).
Proof.
  induction v as [|c v IH]; intros Hplain passes accum Hpasses.
  - destruct passes; cbn [interpolate_loop]; rewrite string_app_nil_r; reflexivity.
  - cbn [has_percent] in Hplain.
    destruct (Ascii.eqb c percent) eqn:Hc; [discriminate|].
    destruct passes as [|passes]; [simpl in Hpasses; lia|].
    cbn [interpolate_loop]. rewrite Hc. cbn [negb].
    rewrite IH by (simpl in Hpasses; auto; lia).
    rewrite string_app_assoc. reflexivity.
Qed.

Lemma before_get_plain config section opt v sectiondict :
  has_percent v = false ->
  before_get config section opt v sectiondict = Normal v.
Proof.
  intros Hplain. unfold before_get, MAX_INTERPOLATION_DEPTH. cbn [interpolate_some].
  rewrite interpolate_loop_plain by (auto; lia). reflexivity.
Qed.

Lemma config_get_fallback config s own d :
  plain_regions config ->
  Dict.get s (sections config) = Some own ->
  config_get config s "region" (Some d) = Normal (resolved_region config d own).
Proof.
  intros [Hdefaults Hsections] Hs. unfold config_get, resolved_region. rewrite Hs.
  change (optionxform "region") with "region".
  destruct (Dict.get "region" own) as [v|] eqn:Hown.
  - apply before_get_plain. eapply Hsections; eassumption.
  - destruct (Dict.get "region" (defaults config)) as [v|] eqn:Hdef; [|reflexivity].
    apply before_get_plain. apply Hdefaults. reflexivity.
Qed.

Lemma get_profiles_loop_ok config d names :
  plain_regions config ->
  config_get config "default" "region" None = Normal d ->
  (forall s, In s names -> exists own, Dict.get s (sections config) = Some own) ->
  NoDup names ->
  forall acc,
    (forall s, In s names -> Dict.get s acc = None) ->
    exists m,
      get_profiles_loop config names acc = Normal m
      /\ Dict.keys m = (Dict.keys acc ++ names)%list
      /\ (forall s own, In s names -> Dict.get s (sections config) = Some own ->
            Dict.get s m = Some (resolved_region config d own))
      /\ (forall k, ~ In k names -> Dict.get k m = Dict.get k acc).
Proof.
  intros Hplain Hd. induction names as [|s names IH]; intros Hsec Hnd acc Hfresh.
  - exists acc. simpl. rewrite app_nil_r. repeat split; auto. intros s own [].
  - inversion Hnd as [|? ? Hnotin' Hnd']; subst.
    assert (Hnotin : ~ In s names) by (rewrite <- list_elem_of_In; exact Hnotin').
    destruct (Hsec s) as [own Hown]; [left; reflexivity|].
    cbn [get_profiles_loop]. rewrite Hd, (config_get_fallback _ _ _ _ Hplain Hown).
    destruct (IH (fun s' Hin => Hsec s' (or_intror Hin)) Hnd'
                (Dict.set s (resolved_region config d own) acc))
      as (m & Hrun & Hkeys & Hget & Hother).
    { intros s' Hin. rewrite get_set_ne.
      - apply Hfresh. right. exact Hin.
      - intros Heq. apply Hnotin. rewrite Heq. exact Hin. }
    exists m. split; [exact Hrun|]. split; [|split].
    + rewrite Hkeys, keys_set_new by (apply Hfresh; left; reflexivity).
      rewrite <- app_assoc. reflexivity.
    + intros s' own' [<-|Hin] Hown'.
      * rewrite Hother by exact Hnotin. rewrite get_set_eq. congruence.
      * apply Hget; assumption.
    + intros k Hk. rewrite Hother by (intros Hin; apply Hk; right; exact Hin).
      apply get_set_ne. intros ->. apply Hk. left. reflexivity.
Qed.

(** When no region holds a [%] and the section named [default] has a
    region, every section gets an entry with its resolved region, in
    file order. *)
Lemma get_profiles_with_default config d :
  plain_regions config ->
  config_get config "default" "region" None = Normal d ->
  NoDup (config_sections config) ->
  exists m,
    get_profiles (Some config) = Normal m
    /\ Dict.keys m = config_sections config
    /\ (forall s own, Dict.get s (sections config) = Some own ->
          Dict.get s m = Some (resolved_region config d own)).
Proof.
  intros Hplain Hd Hnd. unfold get_profiles, config_read.
  destruct (get_profiles_loop_ok config d (config_sections config) Hplain Hd)
    with (acc := @nil (string * string))
    as (m & Hrun & Hkeys & Hget & _).
  - intros s Hin. apply In_keys_get. exact Hin.
  - exact Hnd.
  - reflexivity.
  - exists m. split; [exact Hrun|]. split; [exact Hkeys|].
    intros s own Hown. apply Hget; [|exact Hown].
    eapply get_Some_In_keys. exact Hown.
Qed.

(** Closes [quiet w w' n rows] when [w'] is [w] under explicit updates. *)
Ltac solve_quiet :=
  unfold quiet; simpl; rewrite ?app_nil_r; repeat split; auto.

Section Lemmas.

Context {float : Type} `{!PyFloat float}.

Local Open Scope py_scope.

Implicit Types (env : Env float) (w : World float).

(** ** The monad *)

Lemma bind_Normal {A B} (m : M float A) (k : A -> M float B) w a w' :
  m w = (Normal a, w') -> bind m k w = k a w'.
Proof. intros Hm. unfold bind. rewrite Hm. reflexivity. Qed.

Lemma bind_Raise {A B} (m : M float A) (k : A -> M float B) w e w' :
  m w = (Raise e, w') -> bind m k w = (Raise e, w').
Proof. intros Hm. unfold bind. rewrite Hm. reflexivity. Qed.

Lemma wp_ret {A} (a : A) w Q E : Q a w -> wp (ret a) w Q E.
Proof. intros HQ. exact HQ. Qed.

Lemma wp_bind {A B} (m : M float A) (k : A -> M float B) w Q E :
  wp m w (fun a w' => wp (k a) w' Q E) E -> wp (bind m k) w Q E.
Proof.
  unfold wp, bind. destruct (m w) as [[a|e] w']; intros Hm; exact Hm.
Qed.

Lemma wp_mono {A} (m : M float A) w (Q Q' : A -> World float -> Prop)
    (E E' : exn -> World float -> Prop) :
  wp m w Q E ->
  (forall a w', Q a w' -> Q' a w') ->
  (forall e w', E e w' -> E' e w') ->
  wp m w Q' E'.
Proof.
  unfold wp. destruct (m w) as [[a|e] w']; intros Hm HQ HE; auto.
Qed.

Lemma wp_lift {A} (r : result A) w Q E :
  match r with Normal a => Q a w | Raise e => E e w end -> wp (lift r) w Q E.
Proof. unfold wp, lift. destruct r; auto. Qed.

Lemma wp_call (o : option exn) w Q E :
  match o with None => Q tt w | Some e => E e w end -> wp (call o) w Q E.
Proof. unfold wp, call. destruct o; auto. Qed.

Lemma wp_try_except {A} (body : M float A) clauses w Q E :
  wp body w Q
    (fun e w' =>
       match select_handler clauses e with
       | Some h => wp h w' Q E
       | None => E e w'
       end) ->
  wp (try_except body clauses) w Q E.
Proof.
  unfold wp, try_except. destruct (body w) as [[a|e] w']; intros Hb; auto.
  destruct (select_handler clauses e); auto.
Qed.

(** A loop keeps what each pass keeps. *)
Lemma wp_for_each {A} (xs : list A) (body : A -> M float unit)
    (I : World float -> Prop) E w :
  I w ->
  (forall x w, In x xs -> I w -> wp (body x) w (fun _ => I) E) ->
  wp (for_each xs body) w (fun _ => I) E.
Proof.
  revert w. induction xs as [|x xs IH]; intros w HI Hbody; simpl.
  - exact HI.
  - apply wp_bind. eapply wp_mono.
    + apply Hbody; [left; reflexivity | exact HI].
    + intros u w' HI'. apply IH; [exact HI'|].
      intros y w'' Hy. apply Hbody. right. exact Hy.
    + auto.
Qed.

Lemma wp_getitem {V} (d : dict V) k w Q E :
  match Dict.get k d with
  | Some v => Q v w
  | None => forall e, E e w
  end ->
  wp (getitem d k) w Q E.
Proof. unfold wp, getitem. destruct (Dict.get k d); intros H; [exact H | apply H]. Qed.

Lemma quiet_refl w : quiet w w 0 [].
Proof. unfold quiet. rewrite app_nil_r. auto. Qed.


Lemma quiet_trans w w1 w2 n m rows1 rows2 :
  quiet w w1 n rows1 -> quiet w1 w2 m rows2 ->
  quiet w w2 (m + n) (rows1 ++ rows2)%list.
Proof.
  unfold quiet. intros (Hc1 & Hf1 & He1 & Ho1 & Hr1) (Hc2 & Hf2 & He2 & Ho2 & Hr2).
  rewrite Hc2, Hc1, Hf2, Hf1, He2, He1, Ho2, Ho1, Hr2, Hr1, app_assoc.
  repeat split; auto. lia.
Qed.

(** ** [get_metric_statistics] *)

Lemma isinstance_BotoCoreError_cases e :
  isinstance e BotoCoreError = true ->
  exn_cls e = NoCredentialsError \/ exn_cls e = PartialCredentialsError
  \/ exn_cls e = BotoCoreError.
Proof. unfold isinstance. destruct (exn_cls e); intros; try discriminate; auto. Qed.

(** A handled answer: the function returns the sample and at most logs. *)
Lemma get_metric_statistics_handled env c i mn ns p st et w :
  handled (cw_get_metric_statistics env c (metric_query i mn ns p st et)) ->
  get_metric_statistics env c i mn ns p st et w
  = (Normal (sample_of (cw_get_metric_statistics env c (metric_query i mn ns p st et))),
     with_log
       (log w ++ error_records "instance" i
                   (cw_get_metric_statistics env c (metric_query i mn ns p st et)))%list
       w).
Proof.
  intros Hh. unfold get_metric_statistics, try_except, bind, lift.
  destruct (cw_get_metric_statistics env c (metric_query i mn ns p st et))
    as [response|e]; simpl.
  - rewrite app_nil_r. destruct w; simpl.
    destruct (Datapoints response) as [[|first rest]|]; reflexivity.
  - simpl in Hh. unfold error_record.
    destruct (isinstance_BotoCoreError_cases e Hh) as [Hc|[Hc|Hc]];
      unfold isinstance in *; rewrite Hc; simpl; reflexivity.
Qed.

(** An exception outside the [BotoCoreError] family goes through. *)
Lemma get_metric_statistics_unhandled env c i mn ns p st et w e :
  cw_get_metric_statistics env c (metric_query i mn ns p st et) = Raise e ->
  isinstance e BotoCoreError = false ->
  get_metric_statistics env c i mn ns p st et w = (Raise e, w).
Proof.
  intros Ha Hn. unfold get_metric_statistics, try_except, bind, lift.
  rewrite Ha. simpl.
  unfold isinstance in *. destruct (exn_cls e); try discriminate; reflexivity.
Qed.

Lemma sample_of_is_sample (answer : result (MetricStatistics float)) :
  is_sample (sample_of answer).
Proof.
  unfold is_sample, sample_of. destruct answer as [response|e]; [|auto].
  destruct (Datapoints response) as [[|first rest]|]; auto.
  destruct (Average first); eauto.
Qed.

(** Whatever the answer, the function returns a sample or lets the
    exception through, and touches nothing but the log. *)
Lemma wp_get_metric_statistics env c i mn ns p st et w Q E :
  (forall v l, is_sample v -> Q v (with_log l w)) ->
  (forall e, E e w) ->
  wp (get_metric_statistics env c i mn ns p st et) w Q E.
Proof.
  intros HQ HE.
  destruct (cw_get_metric_statistics env c (metric_query i mn ns p st et))
    as [response|e] eqn:Ha.
  - unfold wp. rewrite get_metric_statistics_handled by (rewrite Ha; exact I).
    apply HQ, sample_of_is_sample.
  - destruct (isinstance e BotoCoreError) eqn:Hi.
    + unfold wp. rewrite get_metric_statistics_handled by (rewrite Ha; exact Hi).
      apply HQ, sample_of_is_sample.
    + unfold wp. rewrite (get_metric_statistics_unhandled _ _ _ _ _ _ _ _ _ e Ha Hi).
      apply HE.
Qed.

(** ** Sessions, clients and the clock *)

Lemma new_Session_ok env p r w :
  boto3_Session env p r = None ->
  new_Session env p r w = (Normal (session_of p r), w).
Proof. intros Hs. unfold new_Session, bind. rewrite Hs. reflexivity. Qed.

Lemma new_client_ok env s service w :
  Session_client env s service = None ->
  new_client env s service w
  = (Normal {| service_name := service; session := s |}, w).
Proof. intros Hc. unfold new_client, bind. rewrite Hc. reflexivity. Qed.

Lemma utcnow_eq env w :
  utcnow env w
  = (Normal (clock env (clock_reads w)), with_clock_reads (S (clock_reads w)) w).
Proof. reflexivity. Qed.

(** ** [get_instance_metrics] *)

Lemma metrics_literal_ok (cpu mem thr prc : value float) :
  is_sample cpu -> is_sample mem -> is_sample thr -> is_sample prc ->
  metrics_ok
    (Dict.literal
       [ ("CPU Utilization", cpu); ("Memory Utilization", mem);
         ("Threads Running", thr); ("Processes Running", prc) ]).
Proof.
  intros Hc Hm Ht Hp. split; [reflexivity|].
  intros m [<-|[<-|[<-|[<-|[]]]]]; eexists; (split; [reflexivity|assumption]).
Qed.

(** Whatever the answers, the function returns the four samples or lets
    an exception through; the report is not touched. *)
Lemma wp_get_instance_metrics env p r i w Q E :
  (forall metrics w', metrics_ok metrics ->
     metrics_report w' = metrics_report w -> Q metrics w') ->
  (forall e w', metrics_report w' = metrics_report w -> E e w') ->
  wp (get_instance_metrics env p r i) w Q E.
Proof.
  intros HQ HE. unfold get_instance_metrics, new_Session, new_client.
  apply wp_bind, wp_bind, wp_call.
  destruct (boto3_Session env p r); [apply HE; reflexivity|].
  apply wp_ret, wp_bind, wp_bind, wp_call.
  destruct (Session_client env _ _); [apply HE; reflexivity|].
  apply wp_ret, wp_bind. unfold wp at 1, utcnow.
  apply wp_bind, wp_get_metric_statistics; [intros cpu l1 Hcpu | intros; apply HE; reflexivity].
  apply wp_bind, wp_get_metric_statistics; [intros mem l2 Hmem | intros; apply HE; reflexivity].
  apply wp_bind, wp_get_metric_statistics; [intros thr l3 Hthr | intros; apply HE; reflexivity].
  apply wp_bind, wp_get_metric_statistics; [intros prc l4 Hprc | intros; apply HE; reflexivity].
  apply wp_ret, HQ; [apply metrics_literal_ok; assumption | reflexivity].
Qed.

(** When the clients can be made and every answer is handled, the
    function returns the four samples of the instance. *)
Lemma get_instance_metrics_handled env p r i w :
  boto3_Session env p r = None ->
  Session_client env (session_of p r) "cloudwatch" = None ->
  (forall q, handled (cw_get_metric_statistics env (cloudwatch_client p r) q)) ->
  exists w',
    get_instance_metrics env p r i w
    = (Normal (expected_metrics env p r i (clock env (clock_reads w))), w')
    /\ quiet w w' 1 [].
Proof.
  intros Hs Hc Hh. unfold get_instance_metrics.
  rewrite (bind_Normal _ _ _ _ _ (new_Session_ok env p r w Hs)).
  rewrite (bind_Normal _ _ _ _ _ (new_client_ok env _ _ w Hc)).
  rewrite (bind_Normal _ _ _ _ _ (utcnow_eq env w)).
  do 4 (erewrite bind_Normal by (apply get_metric_statistics_handled, Hh)).
  eexists. split; [reflexivity|]. solve_quiet.
Qed.

(** ** [print_metrics] *)

Lemma wp_print_metrics i (metrics : dict (value float)) w Q E :
  (forall w', metrics_report w' = metrics_report w -> Q tt w') ->
  (forall e w', metrics_report w' = metrics_report w -> E e w') ->
  wp (print_metrics i metrics) w Q E.
Proof.
  intros HQ HE. unfold print_metrics, wp, bind, logging_info, getitem, ret, raise.
  repeat (destruct (Dict.get _ metrics); [|apply HE; reflexivity]).
  apply HQ. reflexivity.
Qed.

Lemma print_metrics_ok i (metrics : dict (value float)) w :
  metrics_ok metrics ->
  exists w', print_metrics i metrics w = (Normal tt, w') /\ quiet w w' 0 [].
Proof.
  intros [_ Hget].
  destruct (Hget "CPU Utilization") as (cpu & Hcpu & _); [simpl; auto|].
  destruct (Hget "Memory Utilization") as (mem & Hmem & _); [simpl; auto|].
  destruct (Hget "Threads Running") as (thr & Hthr & _); [simpl; auto|].
  destruct (Hget "Processes Running") as (prc & Hprc & _); [simpl; auto 6|].
  unfold print_metrics, bind, logging_info, getitem, ret.
  rewrite Hcpu, Hmem, Hthr, Hprc.
  eexists. split; [reflexivity|]. solve_quiet.
Qed.

(** ** [get_all_instances] *)

(** The nested loops flatten the reservations in order. *)
Lemma collect_instance_ids_flat_map (response : DescribeInstances) :
  collect_instance_ids response
  = flat_map (fun reservation => map InstanceId (Instances reservation))
      (Reservations response).
Proof.
  unfold collect_instance_ids.
  assert (Hinner : forall (l : list Instance) (acc : list string),
             fold_left (fun instances instance => (instances ++ [InstanceId instance])%list) l acc
             = (acc ++ map InstanceId l)%list).
  { induction l as [|x l IH]; intros acc; simpl.
    - rewrite app_nil_r. reflexivity.
    - rewrite IH, <- app_assoc. reflexivity. }
  assert (Houter : forall (rs : list Reservation) (acc : list string),
             fold_left
               (fun instances reservation =>
                  fold_left (fun instances instance => (instances ++ [InstanceId instance])%list)
                    (Instances reservation) instances) rs acc
             = (acc ++ flat_map (fun reservation => map InstanceId (Instances reservation)) rs)%list).
  { induction rs as [|x rs IH]; intros acc; simpl.
    - rewrite app_nil_r. reflexivity.
    - rewrite IH, Hinner, <- app_assoc. reflexivity. }
  apply (Houter (Reservations response) []).
Qed.

(** With the clients made and the answer handled, the function returns
    the instances found and at most logs. *)
Lemma get_all_instances_handled env p r w :
  enumerable env (p, r) ->
  get_all_instances env p r w
  = (Normal (discovered env p r),
     with_log
       (log w ++ error_records "profile" p (describe_instances env (ec2_client p r)))%list
       w).
Proof.
  intros (Hs & Hc & Hh). simpl in Hs, Hc, Hh. unfold get_all_instances.
  rewrite (bind_Normal _ _ _ _ _ (new_Session_ok env p r w Hs)).
  rewrite (bind_Normal _ _ _ _ _ (new_client_ok env _ _ w Hc)).
  fold (ec2_client p r). unfold discovered, try_except, bind, lift.
  destruct (describe_instances env (ec2_client p r)) as [response|e]; simpl.
  - rewrite app_nil_r. destruct w; reflexivity.
  - unfold error_record.
    destruct (isinstance_BotoCoreError_cases e Hh) as [He|[He|He]];
      unfold isinstance in *; rewrite He; simpl; reflexivity.
Qed.

(** The session and the client are made outside the [try]: their
    errors go through, of whatever class. *)
Lemma get_all_instances_session_error env p r w e :
  boto3_Session env p r = Some e ->
  get_all_instances env p r w = (Raise e, w).
Proof.
  intros Hs. unfold get_all_instances, new_Session, bind, call. rewrite Hs.
  reflexivity.
Qed.

(** So does an error of the listing outside the [BotoCoreError] family. *)
Lemma get_all_instances_unhandled env p r w e :
  boto3_Session env p r = None ->
  Session_client env (session_of p r) "ec2" = None ->
  describe_instances env (ec2_client p r) = Raise e ->
  isinstance e BotoCoreError = false ->
  get_all_instances env p r w = (Raise e, w).
Proof.
  intros Hs Hc Hd Hn. unfold get_all_instances.
  rewrite (bind_Normal _ _ _ _ _ (new_Session_ok env p r w Hs)).
  rewrite (bind_Normal _ _ _ _ _ (new_client_ok env _ _ w Hc)).
  fold (ec2_client p r). unfold try_except, bind, lift. rewrite Hd.
  unfold select_handler, isinstance in *.
  destruct (exn_cls e); try discriminate; reflexivity.
Qed.

(** Whatever happens, the report is not touched. *)
Lemma wp_get_all_instances env p r w Q E :
  (forall ids w', metrics_report w' = metrics_report w -> Q ids w') ->
  (forall e w', metrics_report w' = metrics_report w -> E e w') ->
  wp (get_all_instances env p r) w Q E.
Proof.
  intros HQ HE. unfold get_all_instances, new_Session, new_client.
  apply wp_bind, wp_bind, wp_call.
  destruct (boto3_Session env p r); [apply HE; reflexivity|].
  apply wp_ret, wp_bind, wp_bind, wp_call.
  destruct (Session_client env _ _); [apply HE; reflexivity|].
  apply wp_ret, wp_try_except, wp_bind, wp_lift.
  destruct (describe_instances env _) as [response|e].
  - apply wp_ret, HQ. reflexivity.
  - unfold select_handler, isinstance.
    destruct (exn_cls e); simpl;
      first [ apply HE; reflexivity
            | unfold wp, bind, logging_error, ret; apply HQ; reflexivity ].
Qed.

(** ** One instance *)

Lemma expected_metrics_ok env p r i now :
  metrics_ok (expected_metrics env p r i now).
Proof.
  split; [reflexivity|].
  intros m [<-|[<-|[<-|[<-|[]]]]]; eexists;
    (split; [reflexivity | apply sample_of_is_sample]).
Qed.

Lemma row_literal_ok (p r i : string) (cpu mem thr prc : value float) :
  is_sample cpu -> is_sample mem -> is_sample thr -> is_sample prc ->
  row_ok
    (Dict.literal
       [ ("Profile", VStr p); ("Region", VStr r); ("Instance ID", VStr i);
         ("CPU Utilization", cpu); ("Memory Utilization", mem);
         ("Threads Running", thr); ("Processes Running", prc) ]).
Proof.
  intros Hc Hm Ht Hp. split; [reflexivity|].
  intros m [<-|[<-|[<-|[<-|[]]]]]; eexists; (split; [reflexivity|assumption]).
Qed.

Lemma expected_row_ok env p r i now : row_ok (expected_row env p r i now).
Proof. apply row_literal_ok; apply sample_of_is_sample. Qed.

(** One pass of the inner loop appends at most one row, and a good one. *)
Lemma wp_instance_body env p r i w (P : list (dict (value float)) -> Prop) :
  P (metrics_report w) ->
  (forall row, row_ok row -> P (metrics_report w ++ [row])%list) ->
  wp (instance_body env p r i) w
    (fun _ w' => P (metrics_report w')) (fun _ w' => P (metrics_report w')).
Proof.
  intros HP Hrow. unfold instance_body.
  apply wp_bind, wp_get_instance_metrics;
    [intros metrics w1 [Hkeys Hget] Hw1 | intros e w' ->; exact HP].
  apply wp_bind, wp_print_metrics;
    [intros w2 Hw2 | intros e w' ->; rewrite Hw1; exact HP].
  destruct (Hget "CPU Utilization") as (cpu & Hcpu & Hscpu); [simpl; auto|].
  destruct (Hget "Memory Utilization") as (mem & Hmem & Hsmem); [simpl; auto|].
  destruct (Hget "Threads Running") as (thr & Hthr & Hsthr); [simpl; auto|].
  destruct (Hget "Processes Running") as (prc & Hprc & Hsprc); [simpl; auto 6|].
  apply wp_bind, wp_getitem. rewrite Hcpu.
  apply wp_bind, wp_getitem. rewrite Hmem.
  apply wp_bind, wp_getitem. rewrite Hthr.
  apply wp_bind, wp_getitem. rewrite Hprc.
  unfold wp, metrics_report_append. cbn [metrics_report with_metrics_report].
  rewrite Hw2, Hw1. apply Hrow, row_literal_ok; assumption.
Qed.

Lemma instance_body_handled env p r i w :
  boto3_Session env p r = None ->
  Session_client env (session_of p r) "cloudwatch" = None ->
  (forall q, handled (cw_get_metric_statistics env (cloudwatch_client p r) q)) ->
  exists w',
    instance_body env p r i w = (Normal tt, w')
    /\ quiet w w' 1 [expected_row env p r i (clock env (clock_reads w))].
Proof.
  intros Hs Hc Hh. unfold instance_body.
  destruct (get_instance_metrics_handled env p r i w Hs Hc Hh) as (w1 & H1 & Hq1).
  rewrite (bind_Normal _ _ _ _ _ H1).
  destruct (print_metrics_ok i _ w1
              (expected_metrics_ok env p r i (clock env (clock_reads w))))
    as (w2 & H2 & Hq2).
  rewrite (bind_Normal _ _ _ _ _ H2).
  do 4 (erewrite bind_Normal by reflexivity).
  eexists. split; [reflexivity|].
  pose proof (quiet_trans _ _ _ _ _ _ _ Hq1 Hq2) as Hq. simpl in Hq.
  destruct Hq as (Hc' & Hf' & He' & Ho' & Hr').
  unfold quiet. cbn [clock_reads files environ outbox metrics_report with_metrics_report].
  rewrite Hc', Hf', He', Ho', Hr', app_nil_r. auto.
Qed.

(** ** The two loops *)

Lemma instances_loop_handled env p r ids w :
  boto3_Session env p r = None ->
  Session_client env (session_of p r) "cloudwatch" = None ->
  (forall q, handled (cw_get_metric_statistics env (cloudwatch_client p r) q)) ->
  exists w',
    for_each ids (instance_body env p r) w = (Normal tt, w')
    /\ quiet w w' (length ids) (expected_instance_rows env p r ids (clock_reads w)).
Proof.
  intros Hs Hc Hh. revert w. induction ids as [|i ids IH]; intros w.
  - exists w. split; [reflexivity | apply quiet_refl].
  - cbn [for_each].
    destruct (instance_body_handled env p r i w Hs Hc Hh) as (w1 & H1 & Hq1).
    rewrite (bind_Normal _ _ _ _ _ H1).
    destruct (IH w1) as (w2 & H2 & Hq2).
    exists w2. split; [exact H2|].
    pose proof (quiet_trans _ _ _ _ _ _ _ Hq1 Hq2) as Hq.
    destruct Hq1 as (Hclock & _). rewrite Hclock in Hq.
    cbn [length expected_instance_rows].
    rewrite Nat.add_1_r in Hq. exact Hq.
Qed.

Lemma profile_body_handled env item w :
  enumerable env item -> measurable env item ->
  exists w',
    profile_body env item w = (Normal tt, w')
    /\ quiet w w' (length (discovered env (fst item) (snd item)))
         (expected_instance_rows env (fst item) (snd item)
            (discovered env (fst item) (snd item)) (clock_reads w)).
Proof.
  destruct item as [p r]. intros Hen Hme. unfold profile_body.
  erewrite bind_Normal by reflexivity.
  rewrite (bind_Normal _ _ _ _ _ (get_all_instances_handled env p r _ Hen)).
  unfold measurable, enumerable in *. cbn [fst snd] in *.
  destruct Hme as [Hnone | [Hc Hh]].
  - rewrite Hnone. eexists. split; [reflexivity|]. solve_quiet.
  - destruct Hen as (Hs & _).
    match goal with
    | |- context [for_each _ _ ?w1] =>
        destruct (instances_loop_handled env p r (discovered env p r) w1 Hs Hc Hh)
          as (w2 & H2 & Hq2)
    end.
    exists w2. split; [exact H2|].
    destruct Hq2 as (Hc2 & Hf2 & He2 & Ho2 & Hr2). simpl in *.
    unfold quiet. auto.
Qed.

Lemma profiles_loop_handled env profiles w :
  (forall item, In item profiles -> enumerable env item /\ measurable env item) ->
  exists w' n,
    for_each profiles (profile_body env) w = (Normal tt, w')
    /\ quiet w w' n (expected_report env profiles (clock_reads w)).
Proof.
  revert w. induction profiles as [|[p r] profiles IH]; intros w Hall.
  - exists w, 0. split; [reflexivity | apply quiet_refl].
  - cbn [for_each].
    destruct (Hall (p, r)) as [Hen Hme]; [left; reflexivity|].
    destruct (profile_body_handled env (p, r) w Hen Hme) as (w1 & H1 & Hq1).
    rewrite (bind_Normal _ _ _ _ _ H1).
    destruct (IH w1) as (w2 & n & H2 & Hq2).
    { intros item Hin. apply Hall. right. exact Hin. }
    exists w2, (n + length (discovered env p r)). split; [exact H2|].
    pose proof (quiet_trans _ _ _ _ _ _ _ Hq1 Hq2) as Hq.
    destruct Hq1 as (Hclock & _). cbn [fst snd] in *. rewrite Hclock in Hq.
    cbn [expected_report]. rewrite (Nat.add_comm (clock_reads w)). exact Hq.
Qed.

(** When every call is dealt with, the report is the nested
    comprehension over the profiles and their instances. *)
Lemma build_report_handled env profiles w :
  get_profiles (aws_config env) = Normal profiles ->
  (forall item, In item profiles -> enumerable env item /\ measurable env item) ->
  exists w',
    build_report env w = (Normal tt, w')
    /\ metrics_report w' = expected_report env profiles (clock_reads w)
    /\ files w' = files w /\ environ w' = environ w /\ outbox w' = outbox w.
Proof.
  intros Hp Hall. unfold build_report, lift. unfold bind at 1. rewrite Hp.
  erewrite bind_Normal by reflexivity.
  destruct (profiles_loop_handled env profiles (with_metrics_report [] w) Hall)
    as (w' & n & Hrun & Hq).
  exists w'. split; [exact Hrun|].
  destruct Hq as (_ & Hf & He & Ho & Hr). simpl in *. auto.
Qed.

(** ** Rows stay well formed *)

Lemma wp_profile_body env item w :
  Forall row_ok (metrics_report w) ->
  wp (profile_body env item) w
    (fun _ w' => Forall row_ok (metrics_report w'))
    (fun _ w' => Forall row_ok (metrics_report w')).
Proof.
  destruct item as [p r]. intros Hw. unfold profile_body.
  apply wp_bind. unfold wp at 1, logging_info.
  apply wp_bind, wp_get_all_instances;
    [intros ids w1 Hw1 | intros e w1 Hw1; rewrite Hw1; exact Hw].
  apply (wp_for_each ids _ (fun w' => Forall row_ok (metrics_report w'))).
  - rewrite Hw1. exact Hw.
  - intros i w2 _ Hw2. apply wp_instance_body; [exact Hw2|].
    intros row Hrow. apply Forall_app. split; [exact Hw2 | constructor; [exact Hrow | constructor]].
Qed.

Lemma wp_build_report env w :
  Forall row_ok (metrics_report w) ->
  wp (build_report env) w
    (fun _ w' => Forall row_ok (metrics_report w'))
    (fun _ w' => Forall row_ok (metrics_report w')).
Proof.
  intros Hw. unfold build_report. apply wp_bind, wp_lift.
  destruct (get_profiles (aws_config env)) as [profiles|e]; [|exact Hw].
  apply wp_bind. unfold wp at 1, set_metrics_report.
  apply (wp_for_each _ _ (fun w' => Forall row_ok (metrics_report w'))).
  - constructor.
  - intros item w1 _ Hw1. apply wp_profile_body. exact Hw1.
Qed.

(** ** Export and mail leave the report as it is *)

Lemma keeps_ret {A} (a : A) : keeps_report (float:=float) (ret a).
Proof. intros w. reflexivity. Qed.

Lemma keeps_bind {A B} (m : M float A) (k : A -> M float B) :
  keeps_report m -> (forall a, keeps_report (k a)) -> keeps_report (bind m k).
Proof.
  intros Hm Hk w. unfold bind. specialize (Hm w).
  destruct (m w) as [[a|e] w1]; simpl in *.
  - rewrite Hk. exact Hm.
  - exact Hm.
Qed.

Lemma keeps_call (o : option exn) : keeps_report (float:=float) (call o).
Proof. intros w. destruct o; reflexivity. Qed.

Lemma keeps_logging_info msg : keeps_report (float:=float) (logging_info msg).
Proof. intros w. reflexivity. Qed.

Lemma keeps_getenv name : keeps_report (float:=float) (getenv name).
Proof. intros w. reflexivity. Qed.

Lemma keeps_load_dotenv env : keeps_report (load_dotenv env).
Proof. intros w. reflexivity. Qed.

Lemma keeps_read_file path : keeps_report (float:=float) (read_file path).
Proof. intros w. unfold read_file. destruct (files w !! path); reflexivity. Qed.

Lemma keeps_get_metrics_report : keeps_report (float:=float) get_metrics_report.
Proof. intros w. reflexivity. Qed.

Lemma keeps_to_excel env df filename : keeps_report (to_excel env df filename).
Proof.
  intros w. unfold to_excel, bind, call.
  destruct (file_write env filename); reflexivity.
Qed.

Lemma keeps_send_message env msg : keeps_report (send_message env msg).
Proof.
  intros w. unfold send_message, bind, call.
  destruct (SMTP_send_message env msg); reflexivity.
Qed.

Lemma keeps_with_SMTP {A} env host port (body : M float A) :
  keeps_report body -> keeps_report (with_SMTP env host port body).
Proof.
  intros Hb w. unfold with_SMTP, bind, call.
  destruct (SMTP_connect env host port); [reflexivity|]. simpl.
  specialize (Hb w). destruct (body w) as [r w1].
  destruct (SMTP_quit env); exact Hb.
Qed.

Create HintDb keeps.
#[local] Hint Resolve keeps_ret keeps_call keeps_logging_info keeps_getenv
  keeps_load_dotenv keeps_read_file keeps_get_metrics_report keeps_to_excel
  keeps_send_message : keeps.

Ltac solve_keeps :=
  repeat (cbv beta zeta;
          match goal with
          | |- keeps_report (bind _ _) => apply keeps_bind
          | |- keeps_report (with_SMTP _ _ _ _) => apply keeps_with_SMTP
          | |- forall _, _ => intro
          | |- keeps_report _ => solve [auto with keeps]
          end).

Lemma keeps_export_to_excel env data filename :
  keeps_report (export_to_excel env data filename).
Proof. unfold export_to_excel. solve_keeps. Qed.

Lemma keeps_send_email env subject body to_email attachment_file :
  keeps_report (send_email env subject body to_email attachment_file).
Proof. unfold send_email. solve_keeps. Qed.

#[local] Hint Resolve keeps_export_to_excel keeps_send_email : keeps.

Lemma keeps_deliver_report env : keeps_report (deliver_report env).
Proof. unfold deliver_report. solve_keeps. Qed.

(** ** Two runs on the same sources *)

Lemma same_outcome_bind {A B} (m1 m2 : M float A) (k1 k2 : A -> M float B) :
  same_outcome m1 m2 -> (forall a, same_outcome (k1 a) (k2 a)) ->
  same_outcome (bind m1 k1) (bind m2 k2).
Proof.
  intros Hm Hk w1 w2 Hw. unfold bind. specialize (Hm w1 w2 Hw).
  destruct (m1 w1) as [[a1|e1] w1'], (m2 w2) as [[a2|e2] w2'];
    simpl in Hm; destruct Hm as [Hr Hw']; try discriminate.
  - injection Hr as ->. apply Hk, Hw'.
  - injection Hr as ->. split; [reflexivity | exact Hw'].
Qed.

Lemma same_outcome_for_each {A} (xs : list A) (body1 body2 : A -> M float unit) :
  (forall x, same_outcome (body1 x) (body2 x)) ->
  same_outcome (for_each xs body1) (for_each xs body2).
Proof.
  intros Hb. induction xs as [|x xs IH]; cbn [for_each].
  - intros w1 w2 Hw. split; [reflexivity | exact Hw].
  - apply same_outcome_bind; [apply Hb | intros _; exact IH].
Qed.

Lemma same_outcome_call (o1 o2 : option exn) :
  o1 = o2 -> same_outcome (float:=float) (call o1) (call o2).
Proof.
  intros <- w1 w2 Hw. unfold call. destruct o1; split; first [reflexivity | exact Hw].
Qed.

Lemma same_outcome_ret {A} (a : A) : same_outcome (float:=float) (ret a) (ret a).
Proof. intros w1 w2 Hw. split; [reflexivity | exact Hw]. Qed.

Lemma same_outcome_logging_info msg1 msg2 :
  same_outcome (float:=float) (logging_info msg1) (logging_info msg2).
Proof. intros w1 w2 Hw. split; [reflexivity | exact Hw]. Qed.

(** The two clocks need not agree: what follows the [n]-th reading in
    one run is compared with what follows the [n]-th reading in the
    other. *)
Lemma same_outcome_bind_utcnow env1 env2 {B} (k1 k2 : Z -> M float B) :
  (forall n, same_outcome (k1 (clock env1 n)) (k2 (clock env2 n))) ->
  same_outcome (bind (utcnow env1) k1) (bind (utcnow env2) k2).
Proof.
  intros Hk w1 w2 [Hr Hc].
  rewrite (bind_Normal _ _ _ _ _ (utcnow_eq env1 w1)),
    (bind_Normal _ _ _ _ _ (utcnow_eq env2 w2)).
  rewrite <- Hc. apply Hk. split; [exact Hr|]. simpl. rewrite Hc. reflexivity.
Qed.

Lemma get_metric_statistics_same env1 env2 c i mn ns n :
  same_sources env1 env2 ->
  same_outcome
    (get_metric_statistics env1 c i mn ns 60
       (clock env1 n - 10 * 60 * 1000000) (clock env1 n))
    (get_metric_statistics env2 c i mn ns 60
       (clock env2 n - 10 * 60 * 1000000) (clock env2 n)).
Proof.
  intros (_ & _ & _ & _ & Hcw) w1 w2 Hw.
  pose proof (Hcw n c i mn ns) as Hread. unfold query_at in Hread.
  unfold get_metric_statistics, try_except, bind, lift.
  destruct (cw_get_metric_statistics env1 c _) as [response1|e1],
    (cw_get_metric_statistics env2 c _) as [response2|e2];
    simpl in Hread; try contradiction.
  - destruct (Datapoints response1) as [[|first1 rest1]|],
      (Datapoints response2) as [[|first2 rest2]|];
      simpl; (split; [congruence | exact Hw]).
  - subst e2. unfold select_handler, isinstance. destruct (exn_cls e1); simpl; split;
      first [reflexivity | exact Hw].
Qed.

Lemma get_instance_metrics_same env1 env2 p r i :
  same_sources env1 env2 ->
  same_outcome (get_instance_metrics env1 p r i) (get_instance_metrics env2 p r i).
Proof.
  intros Hsame. pose proof Hsame as (_ & Hs & Hc & _ & _).
  unfold get_instance_metrics, new_Session, new_client.
  apply same_outcome_bind; [|intros session].
  { apply same_outcome_bind; [apply same_outcome_call, Hs | intros _; apply same_outcome_ret]. }
  apply same_outcome_bind; [|intros client].
  { apply same_outcome_bind; [apply same_outcome_call, Hc | intros _; apply same_outcome_ret]. }
  apply same_outcome_bind_utcnow. intros n. cbv zeta.
  apply same_outcome_bind; [apply get_metric_statistics_same, Hsame | intros cpu].
  apply same_outcome_bind; [apply get_metric_statistics_same, Hsame | intros mem].
  apply same_outcome_bind; [apply get_metric_statistics_same, Hsame | intros thr].
  apply same_outcome_bind; [apply get_metric_statistics_same, Hsame | intros prc].
  apply same_outcome_ret.
Qed.

Lemma get_all_instances_same env1 env2 p r :
  same_sources env1 env2 ->
  same_outcome (get_all_instances env1 p r) (get_all_instances env2 p r).
Proof.
  intros (_ & Hs & Hc & Hd & _).
  unfold get_all_instances, new_Session, new_client.
  apply same_outcome_bind; [|intros session].
  { apply same_outcome_bind; [apply same_outcome_call, Hs | intros _; apply same_outcome_ret]. }
  apply same_outcome_bind; [|intros client].
  { apply same_outcome_bind; [apply same_outcome_call, Hc | intros _; apply same_outcome_ret]. }
  intros w1 w2 Hw. unfold try_except, bind, lift. rewrite Hd.
  destruct (describe_instances env2 client) as [response|e].
  - split; [reflexivity | exact Hw].
  - unfold select_handler, isinstance. destruct (exn_cls e); simpl; split;
      first [reflexivity | exact Hw].
Qed.

Lemma print_metrics_same i (metrics : dict (value float)) :
  same_outcome (print_metrics i metrics) (print_metrics i metrics).
Proof.
  intros w1 w2 Hw.
  unfold print_metrics, bind, logging_info, getitem, ret, raise.
  repeat (destruct (Dict.get _ metrics); [|split; [reflexivity | exact Hw]]).
  split; [reflexivity | exact Hw].
Qed.

Lemma getitem_same {V} (d : dict V) k :
  same_outcome (float:=float) (getitem d k) (getitem d k).
Proof.
  intros w1 w2 Hw. unfold getitem. destruct (Dict.get k d); split;
    first [reflexivity | exact Hw].
Qed.

Lemma instance_body_same env1 env2 p r i :
  same_sources env1 env2 ->
  same_outcome (instance_body env1 p r i) (instance_body env2 p r i).
Proof.
  intros Hsame. unfold instance_body.
  apply same_outcome_bind; [apply get_instance_metrics_same, Hsame | intros metrics].
  apply same_outcome_bind; [apply print_metrics_same | intros _].
  do 4 (apply same_outcome_bind; [apply getitem_same | intros ?]).
  intros w1 w2 [Hr Hc]. unfold metrics_report_append, aligned. simpl.
  rewrite Hr. auto.
Qed.

Lemma profile_body_same env1 env2 item :
  same_sources env1 env2 ->
  same_outcome (profile_body env1 item) (profile_body env2 item).
Proof.
  intros Hsame. destruct item as [p r]. unfold profile_body.
  apply same_outcome_bind; [apply same_outcome_logging_info | intros _].
  apply same_outcome_bind; [apply get_all_instances_same, Hsame | intros ids].
  apply same_outcome_for_each. intros i. apply instance_body_same, Hsame.
Qed.

(** The report does not depend on what else the worlds hold: not on
    the times the clocks show, the files, the process environment or
    the log. *)
Lemma build_report_same env1 env2 :
  same_sources env1 env2 ->
  same_outcome (build_report env1) (build_report env2).
Proof.
  intros Hsame. pose proof Hsame as (Hcfg & _). unfold build_report.
  rewrite Hcfg.
  apply same_outcome_bind; [|intros profiles].
  { intros w1 w2 Hw. split; [reflexivity | exact Hw]. }
  apply same_outcome_bind; [|intros _].
  { intros w1 w2 [Hr Hc]. split; [reflexivity|]. split; [reflexivity | exact Hc]. }
  apply same_outcome_for_each. intros item. apply profile_body_same, Hsame.
Qed.

Lemma same_reading_refl (answer : result (MetricStatistics float)) :
  same_reading answer answer.
Proof. destruct answer; reflexivity. Qed.

(** Any sources, time-dependent or not, return the same as
    themselves. *)
Lemma same_sources_refl env : same_sources env env.
Proof. repeat split. intros n c i metric_name namespace. apply same_reading_refl. Qed.

(** ** The expected report lists the instances in discovery order *)

Lemma expected_instance_rows_keys env p r ids n :
  map row_key (expected_instance_rows env p r ids n)
  = map key_of (map (fun i => (p, r, i)) ids).
Proof.
  revert n. induction ids as [|i ids IH]; intros n; simpl.
  - reflexivity.
  - rewrite IH. reflexivity.
Qed.

Lemma expected_report_keys env profiles n :
  map row_key (expected_report env profiles n)
  = map key_of (discovery_order env profiles).
Proof.
  unfold discovery_order. revert n.
  induction profiles as [|[p r] profiles IH]; intros n.
  - reflexivity.
  - cbn [expected_report flat_map fst snd].
    rewrite !map_app, expected_instance_rows_keys, IH. reflexivity.
Qed.

Lemma expected_report_none env profiles n :
  (forall item, In item profiles -> discovered env (fst item) (snd item) = []) ->
  expected_report env profiles n = [].
Proof.
  revert n. induction profiles as [|[p r] profiles IH]; intros n Hnone.
  - reflexivity.
  - cbn [expected_report].
    pose proof (Hnone (p, r) (or_introl eq_refl)) as Hpr. cbn [fst snd] in Hpr.
    rewrite Hpr. simpl.
    apply IH. intros item Hin. apply Hnone. right. exact Hin.
Qed.

(** Profiles without instances add nothing to the expected report. *)
Lemma expected_report_filter env profiles n :
  expected_report env profiles n
  = expected_report env (List.filter (has_instances env) profiles) n.
Proof.
  revert n. induction profiles as [|[p r] profiles IH]; intros n; [reflexivity|].
  cbn [List.filter].
  assert (Hhas : has_instances env (p, r)
                 = match discovered env p r with [] => false | _ :: _ => true end)
    by reflexivity.
  rewrite Hhas. clear Hhas.
  destruct (discovered env p r) as [|i ids] eqn:Hd.
  - cbn [expected_report]. rewrite Hd. cbn [expected_instance_rows length app].
    rewrite Nat.add_0_r. apply IH.
  - cbn [expected_report]. rewrite Hd. rewrite IH. reflexivity.
Qed.

(** ** [export_to_excel] *)

Lemma union_keys_schema (data : list (dict (value float))) :
  Forall (fun row => Dict.keys row = SCHEMA) data ->
  union_keys data = match data with [] => [] | _ :: _ => SCHEMA end.
Proof.
  assert (Hfix : forall rest : list (dict (value float)),
             Forall (fun row => Dict.keys row = SCHEMA) rest ->
             fold_left (fun cols row => fold_left add_column (Dict.keys row) cols)
               rest SCHEMA = SCHEMA).
  { induction rest as [|row rest IH]; intros Hall; [reflexivity|].
    inversion Hall as [|? ? Hrow Hrest]; subst. cbn [fold_left].
    rewrite Hrow. change (fold_left add_column SCHEMA SCHEMA) with SCHEMA.
    apply IH, Hrest. }
  intros Hall. destruct data as [|row rest]; [reflexivity|].
  inversion Hall as [|? ? Hrow Hrest]; subst.
  unfold union_keys. cbn [fold_left]. rewrite Hrow.
  change (fold_left add_column SCHEMA []) with SCHEMA.
  apply Hfix, Hrest.
Qed.

Lemma export_to_excel_ok env data filename w :
  file_write env filename = None ->
  export_to_excel env data filename w
  = (Normal filename,
     with_log (log w ++ [(INFO, ("Data exported to " ++ filename)%string)])%list
       (with_files (<[filename := pd_DataFrame data]> (files w)) w)).
Proof.
  intros Hw. unfold export_to_excel, to_excel, bind, call, logging_info, ret.
  rewrite Hw. reflexivity.
Qed.

Lemma export_to_excel_fails env data filename w e :
  file_write env filename = Some e ->
  export_to_excel env data filename w = (Raise e, w).
Proof.
  intros Hw. unfold export_to_excel, to_excel, bind, call, raise.
  rewrite Hw. reflexivity.
Qed.

(** ** [send_email] *)

Ltac run_send_email :=
  unfold send_email, with_SMTP, send_message, read_file, load_dotenv, getenv,
    logging_info, bind, call, ret, raise;
  cbn [log clock_reads files environ outbox metrics_report
       with_log with_clock_reads with_files with_environ with_outbox
       with_metrics_report].

Lemma send_email_fails env subject body to_email f w payload e :
  files w !! f = Some payload ->
  delivery_fails env w
    {| msg_From := from_email_of env w;
       msg_To := to_email;
       msg_Subject := subject;
       msg_body := body;
       attachment_filename := basename f;
       attachment_payload := payload |} e ->
  exists e' w',
    send_email env subject body to_email f w = (Raise e', w')
    /\ (SMTP_quit env = None -> e' = e)
    /\ outbox w' = outbox w /\ files w' = files w.
Proof.
  unfold from_email_of, from_password_of.
  intros Hf [Hc | Hc Ht | Hc Ht Hl | Hc Ht Hl Hm];
    unfold from_email_of, from_password_of in *; run_send_email; rewrite Hf, Hc.
  - do 2 eexists. split; [reflexivity|]. auto.
  - rewrite Ht.
    destruct (SMTP_quit env); do 2 eexists; (split; [reflexivity|]);
      (split; [congruence | auto]).
  - rewrite Ht, Hl.
    destruct (SMTP_quit env); do 2 eexists; (split; [reflexivity|]);
      (split; [congruence | auto]).
  - rewrite Ht, Hl, Hm.
    destruct (SMTP_quit env); do 2 eexists; (split; [reflexivity|]);
      (split; [congruence | auto]).
Qed.

Lemma send_email_sent env subject body to_email f w payload :
  files w !! f = Some payload ->
  SMTP_connect env "smtp.gmail.com" 587 = None ->
  SMTP_starttls env = None ->
  SMTP_login env (from_email_of env w) (from_password_of env w) = None ->
  SMTP_send_message env
    {| msg_From := from_email_of env w;
       msg_To := to_email;
       msg_Subject := subject;
       msg_body := body;
       attachment_filename := basename f;
       attachment_payload := payload |} = None ->
  SMTP_quit env = None ->
  exists w',
    send_email env subject body to_email f w = (Normal tt, w')
    /\ outbox w'
       = (outbox w ++ [ {| msg_From := from_email_of env w;
                           msg_To := to_email;
                           msg_Subject := subject;
                           msg_body := body;
                           attachment_filename := basename f;
                           attachment_payload := payload |} ])%list
    /\ files w' = files w.
Proof.
  unfold from_email_of, from_password_of. intros Hf Hc Ht Hl Hm Hq.
  run_send_email. rewrite Hf, Hc, Ht, Hl, Hm, Hq.
  eexists. split; [reflexivity|]. auto.
Qed.

(** ** [deliver_report] *)

Lemma deliver_report_mail_fails env w e :
  file_write env REPORT_FILE = None ->
  delivery_fails env w (report_message env w (metrics_report w)) e ->
  exists e' w',
    deliver_report env w = (Raise e', w')
    /\ (SMTP_quit env = None -> e' = e)
    /\ outbox w' = outbox w
    /\ read_excel REPORT_FILE w' = Some (pd_DataFrame (metrics_report w)).
Proof.
  intros Hw Hfail. unfold deliver_report.
  erewrite bind_Normal by reflexivity.
  rewrite (bind_Normal _ _ _ _ _ (export_to_excel_ok env _ _ w Hw)).
  erewrite bind_Normal by reflexivity.
  match goal with
  | |- context [send_email _ _ _ ?to _ ?w1] =>
      assert (Hfile : files w1 !! REPORT_FILE = Some (pd_DataFrame (metrics_report w)))
        by (cbn [files with_log with_files]; apply lookup_insert_eq);
      destruct (send_email_fails env "EC2 Metrics Report"
                  "Please find attached the EC2 metrics report." to
                  REPORT_FILE w1 _ e Hfile) as (e' & w' & Hrun & Hq & Ho & Hf)
  end.
  - destruct Hfail as [Hc | Hc Ht | Hc Ht Hl | Hc Ht Hl Hm].
    + apply connect_fails. exact Hc.
    + apply starttls_fails; assumption.
    + apply login_fails; assumption.
    + apply send_message_fails; assumption.
  - exists e', w'. split; [exact Hrun|]. split; [exact Hq|]. split; [exact Ho|].
    unfold read_excel. rewrite Hf. exact Hfile.
Qed.

Lemma deliver_report_sent env w :
  file_write env REPORT_FILE = None ->
  server_accepts_login env w ->
  SMTP_send_message env (report_message env w (metrics_report w)) = None ->
  SMTP_quit env = None ->
  exists w',
    deliver_report env w = (Normal tt, w')
    /\ outbox w' = (outbox w ++ [report_message env w (metrics_report w)])%list
    /\ read_excel REPORT_FILE w' = Some (pd_DataFrame (metrics_report w)).
Proof.
  intros Hw (Hc & Ht & Hl) Hm Hq. unfold deliver_report.
  erewrite bind_Normal by reflexivity.
  rewrite (bind_Normal _ _ _ _ _ (export_to_excel_ok env _ _ w Hw)).
  erewrite bind_Normal by reflexivity.
  match goal with
  | |- context [send_email _ _ _ ?to _ ?w1] =>
      assert (Hfile : files w1 !! REPORT_FILE = Some (pd_DataFrame (metrics_report w)))
        by (cbn [files with_log with_files]; apply lookup_insert_eq);
      destruct (send_email_sent env "EC2 Metrics Report"
                  "Please find attached the EC2 metrics report." to
                  REPORT_FILE w1 _ Hfile Hc Ht Hl Hm Hq) as (w' & Hrun & Ho & Hf)
  end.
  exists w'. split; [exact Hrun|]. split; [exact Ho|].
  unfold read_excel. rewrite Hf. exact Hfile.
Qed.

(** When the file cannot be written, nothing is mailed. *)
Lemma deliver_report_export_fails env w e :
  file_write env REPORT_FILE = Some e ->
  deliver_report env w = (Raise e, w).
Proof.
  intros Hw. unfold deliver_report.
  erewrite bind_Normal by reflexivity.
  apply bind_Raise, export_to_excel_fails, Hw.
Qed.

End Lemmas.

(** * The properties of the report *)

Section Claims.

Context {float : Type} `{!PyFloat float}.

Local Open Scope py_scope.

Implicit Types (env : Env float) (w : World float).

(** C1. Every row the run appends to the report has exactly the keys
    Profile, Region, Instance ID and the four metric names CPU
    Utilization, Memory Utilization, Threads Running and Processes
    Running, in that order, and each metric key holds a float or the
    marker "N/A" -- whatever the profiles, regions, instances and
    answers are, and also when the run ends with an exception. The
    dictionary [get_instance_metrics] returns has exactly the four
    metric keys, each with a float or the marker. *)
Theorem rows_carry_the_four_metrics env w :
  (Forall row_ok (metrics_report w) ->
   Forall row_ok (metrics_report (snd (main env w))))
  /\ (forall p r i metrics w',
        get_instance_metrics env p r i w = (Normal metrics, w') ->
        metrics_ok metrics).
Proof.
  split.
  - intros Hw. unfold main, bind. pose proof (wp_build_report env w Hw) as Hb.
    unfold wp in Hb. destruct (build_report env w) as [[[]|e] w1].
    + rewrite keeps_deliver_report. exact Hb.
    + exact Hb.
  - intros p r i metrics w' Hrun.
    pose proof (wp_get_instance_metrics env p r i w
                  (fun metrics _ => metrics_ok metrics) (fun _ _ => True)) as Hwp.
    unfold wp in Hwp. rewrite Hrun in Hwp. apply Hwp; auto.
Qed.


(** C3. When the query succeeds and its reply has one datapoint or
    more, [get_metric_statistics] returns the Average of the first
    datapoint of the list; the datapoints after it play no part,
    however many there are. *)
Theorem first_datapoint_average_is_returned
    env c i mn ns p st et w response first others a :
  cw_get_metric_statistics env c (metric_query i mn ns p st et) = Normal response ->
  Datapoints response = Some (first :: others) ->
  Average first = Some a ->
  get_metric_statistics env c i mn ns p st et w = (Normal (VFloat a), w).
Proof.
  intros Ha Hd Hav.
  rewrite get_metric_statistics_handled by (rewrite Ha; exact I).
  rewrite Ha. simpl. rewrite Hd, Hav, app_nil_r. destruct w; reflexivity.
Qed.

(** C10. When the query succeeds and its reply has a datapoint, but the
    first datapoint has no 'Average' field, [get_metric_statistics]
    returns the marker "N/A": it raises nothing and the value is not
    absent. *)
Theorem first_datapoint_without_average_yields_the_marker
    env c i mn ns p st et w response first others :
  cw_get_metric_statistics env c (metric_query i mn ns p st et) = Normal response ->
  Datapoints response = Some (first :: others) ->
  Average first = None ->
  get_metric_statistics env c i mn ns p st et w = (Normal NA, w).
Proof.
  intros Ha Hd Hav.
  rewrite get_metric_statistics_handled by (rewrite Ha; exact I).
  rewrite Ha. simpl. rewrite Hd, Hav, app_nil_r. destruct w; reflexivity.
Qed.

(** C5, as the code has it. When the clients of a profile can be made
    and the listing of its instances raises a credential error or
    another [BotoCoreError], [get_all_instances] logs the error and
    returns the empty list instead of raising; the pass of the loop for that profile ends
    normally with no row added, and the loop goes on with the next
    profile. *)
Theorem failed_listing_is_logged_and_skipped env p r e w rest :
  boto3_Session env p r = None ->
  Session_client env (session_of p r) "ec2" = None ->
  describe_instances env (ec2_client p r) = Raise e ->
  isinstance e BotoCoreError = true ->
  get_all_instances env p r w
  = (Normal [], with_log (log w ++ [error_record "profile" p e])%list w)
  /\ exists w',
       profile_body env (p, r) w = (Normal tt, w')
       /\ metrics_report w' = metrics_report w
       /\ In (error_record "profile" p e) (log w')
       /\ for_each ((p, r) :: rest) (profile_body env) w
          = for_each rest (profile_body env) w'.
Proof.
  intros Hs Hc Hd He.
  assert (Hen : enumerable env (p, r)).
  { repeat split; [exact Hs | exact Hc |]. simpl. rewrite Hd. exact He. }
  pose proof (get_all_instances_handled env p r) as Hall.
  unfold discovered in Hall. rewrite Hd in Hall. simpl in Hall.
  split; [apply Hall, Hen|].
  eexists. unfold profile_body. cbn [for_each].
  erewrite (bind_Normal (logging_info _)) by reflexivity.
  rewrite (bind_Normal _ _ _ _ _ (Hall _ Hen)). cbn [for_each].
  split; [reflexivity|]. split; [reflexivity|]. split.
  - simpl. apply in_or_app. right. left. reflexivity.
  - unfold profile_body.
    erewrite (bind_Normal (bind (logging_info _) _)); [reflexivity|].
    erewrite (bind_Normal (logging_info _)) by reflexivity.
    rewrite (bind_Normal _ _ _ _ _ (Hall _ Hen)). reflexivity.
Qed.

(** C6. Profiles without instances cost rows and nothing else. When
    every profile of the store can be listed (a reply, or an error that
    is logged) and the instances found can be measured, building the
    report raises nothing, and the report holds one row for each
    instance found, in discovery order: it is the report of the
    profiles that have an instance, so a profile whose listing is
    empty or fails adds no row and takes none away, and with no
    profile, or no instance in any profile, the report is empty. The
    run then goes on to export and mail that report, empty or not: what
    [main] does is what [deliver_report] does with it; when the file
    can be written and the mail server takes the message, the file
    holds the table of the report, the message with that table is sent
    and the run ends normally. *)
Theorem empty_report_is_still_delivered env w profiles :
  get_profiles (aws_config env) = Normal profiles ->
  (forall item, In item profiles -> enumerable env item /\ measurable env item) ->
  exists w1,
    build_report env w = (Normal tt, w1)
    /\ metrics_report w1
       = expected_report env (List.filter (has_instances env) profiles) (clock_reads w)
    /\ map row_key (metrics_report w1) = map key_of (discovery_order env profiles)
    /\ ((forall item, In item profiles -> discovered env (fst item) (snd item) = []) ->
        metrics_report w1 = [])
    /\ main env w = deliver_report env w1
    /\ (file_write env REPORT_FILE = None ->
        server_accepts_login env w ->
        SMTP_send_message env (report_message env w (metrics_report w1)) = None ->
        SMTP_quit env = None ->
        exists w2,
          main env w = (Normal tt, w2)
          /\ read_excel REPORT_FILE w2 = Some (pd_DataFrame (metrics_report w1))
          /\ outbox w2
             = (outbox w ++ [report_message env w (metrics_report w1)])%list).
Proof.
  intros Hp Hall.
  destruct (build_report_handled env profiles w Hp Hall)
    as (w1 & Hrun & Hr & Hf & He & Ho).
  exists w1. split; [exact Hrun|].
  split; [rewrite Hr; apply expected_report_filter|].
  split; [rewrite Hr; apply expected_report_keys|].
  split; [intros Hnone; rewrite Hr; apply expected_report_none, Hnone|].
  assert (Hmain : main env w = deliver_report env w1).
  { unfold main. rewrite (bind_Normal _ _ _ _ _ Hrun). reflexivity. }
  split; [exact Hmain|].
  intros Hw Hserver Hsend Hquit. rewrite Hmain.
  assert (Hmsg : report_message env w1 (metrics_report w1)
                 = report_message env w (metrics_report w1)).
  { unfold report_message, from_email_of. rewrite He. reflexivity. }
  destruct (deliver_report_sent env w1 Hw) as (w2 & Hrun2 & Ho2 & Hf2).
  - unfold server_accepts_login, from_email_of, from_password_of in *.
    rewrite He. exact Hserver.
  - rewrite Hmsg. exact Hsend.
  - exact Hquit.
  - exists w2. split; [exact Hrun2|]. split; [exact Hf2|].
    rewrite Ho2, Hmsg, Ho. reflexivity.
Qed.

(** C7. The report is a function of what the profile store, the
    instance listing and the metric queries return. Take two runs that
    start with the same report and as many readings of the clock behind
    them (an empty report and none, when the script starts): when the
    store gives the same profiles, the listings answer the same, and
    the metric queries of the two runs, made one after the other at the
    times their own clocks show, read alike, both runs end the building
    of the report the same way with the same rows in the same order,
    whatever their clocks, files, process environments, mail servers
    and logs are. And the order is
    the discovery order: when every call of a run is dealt with, its
    report is built row by row, profile by profile in the order of the
    store, and within a profile instance by instance in the order of
    the listing. *)
Theorem report_is_determined_by_its_sources env1 env2 w1 w2 profiles :
  (same_sources env1 env2 ->
   metrics_report w1 = metrics_report w2 ->
   clock_reads w1 = clock_reads w2 ->
   fst (build_report env1 w1) = fst (build_report env2 w2)
   /\ metrics_report (snd (build_report env1 w1))
      = metrics_report (snd (build_report env2 w2)))
  /\ (get_profiles (aws_config env1) = Normal profiles ->
      (forall item, In item profiles ->
         enumerable env1 item /\ measurable env1 item) ->
      exists w',
        build_report env1 w1 = (Normal tt, w')
        /\ metrics_report w' = expected_report env1 profiles (clock_reads w1)
        /\ map row_key (metrics_report w')
           = map key_of (discovery_order env1 profiles)).
Proof.
  split.
  - intros Hsame Hr Hc.
    destruct (build_report_same env1 env2 Hsame w1 w2 (conj Hr Hc)) as [Hfst [Hrows _]].
    split; [exact Hfst | exact Hrows].
  - intros Hp Hall.
    destruct (build_report_handled env1 profiles w1 Hp Hall) as (w' & Hrun & Hr & _).
    exists w'. split; [exact Hrun|]. split; [exact Hr|].
    rewrite Hr. apply expected_report_keys.
Qed.

(** C8, as the code has it. For every report with at least one row,
    each row with the keys of the schema, the file written by
    [export_to_excel] reads back as a table with as many rows as the
    report and with the columns Profile, Region, Instance ID and the
    four metric names, in that order, as its header row. For the empty
    report the table has no row and no column. *)
Theorem exported_table_matches_the_report env data filename w :
  Forall row_ok data ->
  file_write env filename = None ->
  exists table,
    fst (export_to_excel env data filename w) = Normal filename
    /\ read_excel filename (snd (export_to_excel env data filename w)) = Some table
    /\ length (rows table) = length data
    /\ columns table = match data with [] => [] | _ :: _ => SCHEMA end.
Proof.
  intros Hrows Hw. exists (pd_DataFrame data).
  rewrite (export_to_excel_ok env data filename w Hw). cbn [fst snd].
  split; [reflexivity|]. split; [|split].
  - unfold read_excel. cbn [files with_log with_files]. apply lookup_insert_eq.
  - unfold pd_DataFrame. cbn [rows]. apply length_map.
  - unfold pd_DataFrame. cbn [columns]. apply union_keys_schema.
    eapply Forall_impl; [exact Hrows|]. intros row [Hkeys _]. exact Hkeys.
Qed.

(** C9. When the report is built and the file is written, but the mail
    dialogue fails -- at the connection, at STARTTLS, at the login or at
    the message -- nothing catches the error: [main] ends with an
    exception, which is the error of the failing step unless the
    closing QUIT fails too and raises its own; by then the report file
    is on disk with the table of the report, and no message has been
    sent. *)
Theorem mail_failure_ends_the_run_after_the_export env w0 w e :
  build_report env w0 = (Normal tt, w) ->
  file_write env REPORT_FILE = None ->
  delivery_fails env w (report_message env w (metrics_report w)) e ->
  exists e' w',
    main env w0 = (Raise e', w')
    /\ (SMTP_quit env = None -> e' = e)
    /\ read_excel REPORT_FILE w' = Some (pd_DataFrame (metrics_report w))
    /\ outbox w' = outbox w.
Proof.
  intros Hb Hw Hfail.
  destruct (deliver_report_mail_fails env w e Hw Hfail)
    as (e' & w' & Hrun & Hq & Ho & Hf).
  exists e', w'. split; [|split; [exact Hq | split; [exact Hf | exact Ho]]].
  unfold main. rewrite (bind_Normal _ _ _ _ _ Hb). exact Hrun.
Qed.

End Claims.

(** * The properties on the sample deployment *)

Import Sample.

(** C4. On a store whose only section is [profile dev], with a region
    of its own and no section named [default], [get_profiles] raises
    [NoSectionError] where the mapping from [profile dev] to its region
    [eu-west-1] is due: the fallback [config.get('default', 'region')]
    is evaluated before the section is looked at. *)
Theorem store_without_default_section_raises :
  Dict.get "profile dev" (sections no_default_config)
  = Some [("region", "eu-west-1")]
  /\ get_profiles (Some no_default_config)
     = Raise (Exn NoSectionError "No section: 'default'").
Proof. split; reflexivity. Qed.

(** With a section named [default] the same store gives the mapping. *)
Example store_with_default_section :
  get_profiles (Some typical_config)
  = Normal [ ("default", "us-east-1"); ("profile dev", "eu-west-1");
             ("profile bare", "us-east-1") ].
Proof. reflexivity. Qed.

(** C8 fails on the empty report: the file written for it reads back as
    a table without any column, not with the seven columns of the
    schema. *)
Lemma empty_report_has_no_columns :
  exists table,
    read_excel REPORT_FILE (snd (export_to_excel env0 [] REPORT_FILE w0)) = Some table
    /\ length (rows table) = 0
    /\ columns table = []
    /\ columns table <> SCHEMA.
Proof.
  exists {| columns := []; rows := [] |}.
  split; [vm_compute; reflexivity|]. repeat split. discriminate.
Qed.

Lemma sample_metrics_handled c q : handled (sample_metrics c q).
Proof.
  unfold sample_metrics.
  repeat (destruct (String.eqb _ _); [exact I || reflexivity|]). exact I.
Qed.

Lemma rows_carry_the_four_metrics_witness :
  Forall row_ok (metrics_report w0)
  /\ Forall row_ok (metrics_report (snd (main env0 w0)))
  /\ metrics_ok (expected_metrics env0 "default" "us-east-1" "i-abc123" (morning 0)).
Proof.
  split; [constructor|]. split.
  - apply (proj1 (rows_carry_the_four_metrics env0 w0)). constructor.
  - eapply (proj2 (rows_carry_the_four_metrics env0 w0)
              "default" "us-east-1" "i-abc123").
    vm_compute. reflexivity.
Defined.



Lemma first_datapoint_average_is_returned_witness :
  get_metric_statistics env0 i_abc123_client
    "i-abc123" "CPUUtilization" "AWS/EC2" 60 0 600 w0
  = (Normal (VFloat "12.5"), w0).
Proof.
  eapply (first_datapoint_average_is_returned env0); reflexivity.
Defined.

Lemma first_datapoint_without_average_yields_the_marker_witness :
  get_metric_statistics env0 i_abc123_client
    "i-abc123" "procstat_processes" "CWAgent" 60 0 600 w0
  = (Normal NA, w0).
Proof.
  eapply (first_datapoint_without_average_yields_the_marker env0); reflexivity.
Defined.

Lemma failed_listing_is_logged_and_skipped_witness :
  describe_instances env0 (ec2_client "profile dev" "eu-west-1")
  = Raise (Exn NoCredentialsError "Unable to locate credentials")
  /\ get_all_instances env0 "profile dev" "eu-west-1" w0
     = (Normal [],
        with_log
          [(ERROR, "Credential error for profile profile dev: Unable to locate credentials")]
          w0).
Proof.
  split; [reflexivity|].
  apply (failed_listing_is_logged_and_skipped env0 "profile dev" "eu-west-1"
           (Exn NoCredentialsError "Unable to locate credentials") w0
           [("profile bare", "us-east-1")]); reflexivity.
Defined.

(** C5 fails when the failure is not a [BotoCoreError] of the listing
    itself. A listing that the service refuses ([ClientError]) is not
    caught, and a client that cannot be made for lack of the secret key
    ([PartialCredentialsError]) fails before the [try]: in both runs
    [get_all_instances] raises for [profile dev] and logs nothing, and
    the run ends there, with the row of [default] only, before
    [profile bare] is looked at and without file or mail. *)
Lemma unlisted_profile_ends_the_run :
  (get_all_instances env_auth_failure "profile dev" "eu-west-1" w0
   = (Raise (Exn ClientError
               "An error occurred (AuthFailure) when calling the DescribeInstances operation: AWS was not able to validate the provided access credentials"),
      w0)
   /\ fst (main env_auth_failure w0)
      = Raise (Exn ClientError
                 "An error occurred (AuthFailure) when calling the DescribeInstances operation: AWS was not able to validate the provided access credentials")
   /\ existsb (fun record =>
                 String.eqb (snd record)
                   "Checking metrics for profile: profile dev in region: eu-west-1")
        (log (snd (main env_auth_failure w0))) = true
   /\ existsb (fun record =>
                 String.eqb (snd record)
                   "Checking metrics for profile: profile bare in region: us-east-1")
        (log (snd (main env_auth_failure w0))) = false
   /\ length (metrics_report (snd (main env_auth_failure w0))) = 1
   /\ read_excel REPORT_FILE (snd (main env_auth_failure w0)) = None
   /\ outbox (snd (main env_auth_failure w0)) = [])
  /\ (get_all_instances env_partial_credentials "profile dev" "eu-west-1" w0
      = (Raise (Exn PartialCredentialsError
                  "Partial credentials found in shared-credentials-file, missing: aws_secret_access_key"),
         w0)
      /\ fst (main env_partial_credentials w0)
         = Raise (Exn PartialCredentialsError
                    "Partial credentials found in shared-credentials-file, missing: aws_secret_access_key")
      /\ read_excel REPORT_FILE (snd (main env_partial_credentials w0)) = None
      /\ outbox (snd (main env_partial_credentials w0)) = []).
Proof. repeat split; vm_compute; reflexivity. Qed.

Lemma fleet_metrics_handled start step c q : handled (drifting_metrics start step c q).
Proof.
  unfold drifting_metrics.
  destruct (String.eqb _ _); [exact I | apply sample_metrics_handled].
Qed.

Lemma fleet_profiles_dealt_with item :
  In item fleet_profiles -> enumerable env_fleet item /\ measurable env_fleet item.
Proof.
  intros [<-|[<-|[<-|[<-|[]]]]]; (split; [repeat split|]);
    first [ left; reflexivity
          | right; split; [reflexivity | intros q; apply fleet_metrics_handled] ].
Qed.

Lemma empty_report_is_still_delivered_witness :
  get_profiles (aws_config env_fleet) = Normal fleet_profiles
  /\ List.filter (has_instances env_fleet) fleet_profiles
     = [ ("default", "us-east-1"); ("profile batch", "us-east-1") ]
  /\ exists w1 w2,
       build_report env_fleet w0 = (Normal tt, w1)
       /\ metrics_report w1
          = expected_report env_fleet
              [ ("default", "us-east-1"); ("profile batch", "us-east-1") ] 0
       /\ map row_key (metrics_report w1)
          = [ (Some (VStr "default"), Some (VStr "us-east-1"), Some (VStr "i-1"));
              (Some (VStr "default"), Some (VStr "us-east-1"), Some (VStr "i-2"));
              (Some (VStr "default"), Some (VStr "us-east-1"), Some (VStr "i-3"));
              (Some (VStr "profile batch"), Some (VStr "us-east-1"), Some (VStr "i-9")) ]
       /\ main env_fleet w0 = (Normal tt, w2)
       /\ read_excel REPORT_FILE w2 = Some (pd_DataFrame (metrics_report w1))
       /\ outbox w2 = [report_message env_fleet w0 (metrics_report w1)].
Proof.
  split; [reflexivity|]. split; [reflexivity|].
  destruct (empty_report_is_still_delivered env_fleet w0 fleet_profiles eq_refl
              fleet_profiles_dealt_with)
    as (w1 & Hb & Hr & Hk & _ & _ & Hsend).
  destruct Hsend as (w2 & Hm & Hf & Ho);
    [reflexivity | repeat split | reflexivity | reflexivity |].
  exists w1, w2. repeat split; assumption.
Defined.

(** The two fleets return the same: the [n]-th window of either clock
    has the same load. *)
Lemma same_sources_later : same_sources env_fleet env_fleet_later.
Proof.
  repeat split.
  intros n c i metric_name namespace.
  unfold env_fleet, env_fleet_later, sample_env, query_at, metric_query; simpl.
  unfold drifting_metrics; simpl.
  destruct (String.eqb metric_name "CPUUtilization") eqn:Hcpu;
    [|unfold sample_metrics; simpl; rewrite Hcpu;
      destruct (String.eqb metric_name "mem_used_percent"); [exact eq_refl|];
      destruct (String.eqb metric_name "procstat_threads"); exact eq_refl].
  simpl. unfold sample_of; simpl. unfold morning, evening.
  replace ((1700000000000000 + Z.of_nat n * 2000000
            - (1700000000000000 + Z.of_nat 0 * 2000000)) / 2000000)%Z
    with (Z.of_nat n)
    by (replace (1700000000000000 + Z.of_nat n * 2000000
                 - (1700000000000000 + Z.of_nat 0 * 2000000))%Z
          with (Z.of_nat n * 2000000)%Z by lia;
        symmetry; apply Z.div_mul; lia).
  replace ((1700040000000000 + Z.of_nat n * 3000000
            - (1700040000000000 + Z.of_nat 0 * 3000000)) / 3000000)%Z
    with (Z.of_nat n)
    by (replace (1700040000000000 + Z.of_nat n * 3000000
                 - (1700040000000000 + Z.of_nat 0 * 3000000))%Z
          with (Z.of_nat n * 3000000)%Z by lia;
        symmetry; apply Z.div_mul; lia).
  reflexivity.
Qed.

Lemma typical_profiles_dealt_with item :
  In item [ ("default", "us-east-1"); ("profile dev", "eu-west-1");
            ("profile bare", "us-east-1") ] ->
  enumerable env0 item /\ measurable env0 item.
Proof.
  intros [<-|[<-|[<-|[]]]]; (split; [repeat split|]);
    first [ left; reflexivity
          | right; split; [reflexivity | intros q; apply sample_metrics_handled] ].
Qed.

Lemma report_is_determined_by_its_sources_witness :
  same_sources env_fleet env_fleet_later
  /\ fst (build_report env_fleet w0) = fst (build_report env_fleet_later w_used)
  /\ metrics_report (snd (build_report env_fleet w0))
     = metrics_report (snd (build_report env_fleet_later w_used))
  /\ exists w',
       build_report env_fleet w0 = (Normal tt, w')
       /\ map row_key (metrics_report w')
          = [ (Some (VStr "default"), Some (VStr "us-east-1"), Some (VStr "i-1"));
              (Some (VStr "default"), Some (VStr "us-east-1"), Some (VStr "i-2"));
              (Some (VStr "default"), Some (VStr "us-east-1"), Some (VStr "i-3"));
              (Some (VStr "profile batch"), Some (VStr "us-east-1"), Some (VStr "i-9")) ]
       /\ map (Dict.get "CPU Utilization") (metrics_report w')
          = [ Some (VFloat "12.5"); Some (VFloat "87.5");
              Some (VFloat "12.5"); Some (VFloat "87.5") ].
Proof.
  split; [exact same_sources_later|].
  destruct (report_is_determined_by_its_sources env_fleet env_fleet_later w0 w_used
              fleet_profiles) as [Hsame Horder].
  destruct (Hsame same_sources_later eq_refl eq_refl) as [Hfst Hrows].
  split; [exact Hfst|]. split; [exact Hrows|].
  destruct (Horder eq_refl fleet_profiles_dealt_with) as (w' & Hrun & Hr & Hkeys).
  exists w'. split; [exact Hrun|]. split; [exact Hkeys|].
  rewrite Hr. reflexivity.
Defined.

Lemma exported_table_matches_the_report_witness :
  exists table,
    fst (export_to_excel env0 [expected_row env0 "default" "us-east-1" "i-abc123" 0]
           REPORT_FILE w0) = Normal REPORT_FILE
    /\ read_excel REPORT_FILE
         (snd (export_to_excel env0
                 [expected_row env0 "default" "us-east-1" "i-abc123" 0]
                 REPORT_FILE w0)) = Some table
    /\ length (rows table) = 1
    /\ columns table = SCHEMA.
Proof.
  apply (exported_table_matches_the_report env0
           [expected_row env0 "default" "us-east-1" "i-abc123" 0] REPORT_FILE w0).
  - constructor; [apply expected_row_ok | constructor].
  - reflexivity.
Defined.

Lemma mail_failure_ends_the_run_after_the_export_witness :
  exists e' w',
    main env_bad_login w0 = (Raise e', w')
    /\ (SMTP_quit env_bad_login = None ->
        e' = Exn SMTPException "(535, b'5.7.8 Username and Password not accepted')")
    /\ read_excel REPORT_FILE w'
       = Some (pd_DataFrame (metrics_report (snd (build_report env_bad_login w0))))
    /\ outbox w' = [].
Proof.
  apply (mail_failure_ends_the_run_after_the_export env_bad_login w0
           (snd (build_report env_bad_login w0))
           (Exn SMTPException "(535, b'5.7.8 Username and Password not accepted')")).
  - vm_compute. reflexivity.
  - reflexivity.
  - apply login_fails; reflexivity.
Defined.

(** * Further lemmas *)

(** ** [get_profiles] *)

(** The loop raises at the first lookup that raises: that of the
    region of [default], made anew on every pass, or that of the region
    of a section. *)
Lemma get_profiles_loop_raises config names acc e :
  get_profiles_loop config names acc = Raise e <->
  names <> []
  /\ (config_get config "default" "region" None = Raise e
      \/ exists d before s after,
           config_get config "default" "region" None = Normal d
           /\ names = (before ++ s :: after)%list
           /\ Forall (fun s' => exists v,
                        config_get config s' "region" (Some d) = Normal v) before
           /\ config_get config s "region" (Some d) = Raise e).
Proof.
  revert acc. induction names as [|s names IH]; intros acc.
  - cbn [get_profiles_loop]. split; [discriminate | intros [Hne _]; congruence].
  - cbn [get_profiles_loop].
    destruct (config_get config "default" "region" None) as [d|e0] eqn:Hd.
    + destruct (config_get config s "region" (Some d)) as [v|e1] eqn:Hv.
      * rewrite IH. split.
        -- intros [Hne [Hraise | (d' & before & s' & after & Hd' & -> & Hall & Hs')]];
             [discriminate|].
           split; [discriminate|]. right.
           exists d', (s :: before), s', after.
           split; [exact Hd'|]. split; [reflexivity|]. split; [|exact Hs'].
           constructor; [|exact Hall]. exists v. congruence.
        -- intros [_ [Hraise | (d' & before & s' & after & Hd' & Hnames & Hall & Hs')]];
             [discriminate|].
           destruct before as [|b before]; cbn [app] in Hnames;
             injection Hnames as <- ->.
           ++ congruence.
           ++ split; [destruct before; discriminate|]. right.
              exists d', before, s', after.
              split; [exact Hd'|]. split; [reflexivity|].
              split; [inversion Hall; assumption | exact Hs'].
      * split.
        -- intros Hrun. split; [discriminate|]. right.
           exists d, [], s, names. repeat split; [constructor | congruence].
        -- intros [_ [Hraise | (d' & before & s' & after & Hd' & Hnames & Hall & Hs')]];
             [discriminate|].
           destruct before as [|b before]; cbn [app] in Hnames;
             injection Hnames as <- ->.
           ++ congruence.
           ++ inversion Hall as [|? ? [v Hv'] _]; subst. congruence.
    + split.
      * intros Hrun. split; [discriminate|]. left. congruence.
      * intros [_ [Hraise | (d' & _ & _ & _ & Hd' & _)]]; [congruence | discriminate].
Qed.

Lemma get_profiles_loop_nonempty config names acc m :
  get_profiles_loop config names acc = Normal m ->
  acc <> [] \/ names <> [] -> m <> [].
Proof.
  revert acc. induction names as [|s names IH]; intros acc Hrun Hne; simpl in Hrun.
  - injection Hrun as <-. destruct Hne as [Hacc|Hn]; [exact Hacc | congruence].
  - destruct (config_get config "default" "region" None) as [d|]; [|discriminate].
    destruct (config_get config s "region" (Some d)) as [v|]; [|discriminate].
    apply (IH _ Hrun). left. destruct acc as [|[k0 v0] acc]; simpl.
    + discriminate.
    + destruct (String.eqb s k0); discriminate.
Qed.

Section FurtherLemmas.

Context {float : Type} `{!PyFloat float}.

Local Open Scope py_scope.

Implicit Types (env : Env float) (w : World float).

(** ** The loop over a list that is given in two parts *)

Lemma for_each_app {A} (xs ys : list A) (body : A -> M float unit) w :
  for_each (xs ++ ys)%list body w
  = bind (for_each xs body) (fun _ => for_each ys body) w.
Proof.
  revert w. induction xs as [|x xs IH]; intros w; simpl.
  - reflexivity.
  - unfold bind in *. destruct (body x w) as [[[]|e] w1].
    + apply IH.
    + reflexivity.
Qed.

(** ** Files, environment and outbox *)

Lemma untouched_refl w : untouched w w.
Proof. repeat split. Qed.

Lemma untouched_trans w w1 w2 :
  untouched w w1 -> untouched w1 w2 -> untouched w w2.
Proof.
  intros (Hf1 & He1 & Ho1) (Hf2 & He2 & Ho2).
  unfold untouched. rewrite Hf2, He2, Ho2. auto.
Qed.

Lemma outside_ret {A} (a : A) : keeps_outside (float:=float) (ret a).
Proof. intros w. apply untouched_refl. Qed.

Lemma outside_bind {A B} (m : M float A) (k : A -> M float B) :
  keeps_outside m -> (forall a, keeps_outside (k a)) -> keeps_outside (bind m k).
Proof.
  intros Hm Hk w. unfold bind. specialize (Hm w).
  destruct (m w) as [[a|e] w1]; simpl in *.
  - eapply untouched_trans; [exact Hm | apply Hk].
  - exact Hm.
Qed.

Lemma outside_call (o : option exn) : keeps_outside (float:=float) (call o).
Proof. intros w. destruct o; apply untouched_refl. Qed.

Lemma outside_lift {A} (r : result A) : keeps_outside (float:=float) (lift r).
Proof. intros w. apply untouched_refl. Qed.

Lemma outside_logging_info msg : keeps_outside (float:=float) (logging_info msg).
Proof. intros w. repeat split. Qed.

Lemma outside_logging_error msg : keeps_outside (float:=float) (logging_error msg).
Proof. intros w. repeat split. Qed.

Lemma outside_utcnow env : keeps_outside (utcnow env).
Proof. intros w. repeat split. Qed.

Lemma outside_getitem {V} (d : dict V) k : keeps_outside (float:=float) (getitem d k).
Proof. intros w. unfold getitem. destruct (Dict.get k d); apply untouched_refl. Qed.

Lemma outside_set_metrics_report r : keeps_outside (float:=float) (set_metrics_report r).
Proof. intros w. repeat split. Qed.

Lemma outside_metrics_report_append row :
  keeps_outside (float:=float) (metrics_report_append row).
Proof. intros w. repeat split. Qed.

Lemma outside_try_except {A} (body : M float A) clauses :
  keeps_outside body ->
  Forall (fun clause => forall e, keeps_outside (snd clause e)) clauses ->
  keeps_outside (try_except body clauses).
Proof.
  intros Hb Hc w. unfold try_except. specialize (Hb w).
  destruct (body w) as [[a|e] w1]; simpl in *; [exact Hb|].
  assert (Hsel : forall h, select_handler clauses e = Some h -> keeps_outside h).
  { clear Hb. induction Hc as [|[classes h0] clauses Hh0 Hc IH]; simpl; [discriminate|].
    destruct (existsb (isinstance e) classes).
    - intros h [= <-]. apply Hh0.
    - exact IH. }
  destruct (select_handler clauses e) as [h|] eqn:Hs; [|exact Hb].
  eapply untouched_trans; [exact Hb | apply (Hsel h eq_refl)].
Qed.

Lemma outside_for_each {A} (xs : list A) (body : A -> M float unit) :
  (forall x, keeps_outside (body x)) -> keeps_outside (for_each xs body).
Proof.
  intros Hb. induction xs as [|x xs IH]; simpl.
  - apply outside_ret.
  - apply outside_bind; [apply Hb | intros _; exact IH].
Qed.

Ltac solve_outside :=
  repeat (cbv beta zeta;
          match goal with
          | |- keeps_outside (bind _ _) => apply outside_bind
          | |- keeps_outside (try_except _ _) => apply outside_try_except
          | |- keeps_outside (for_each _ _) => apply outside_for_each
          | |- keeps_outside (ret _) => apply outside_ret
          | |- keeps_outside (call _) => apply outside_call
          | |- keeps_outside (lift _) => apply outside_lift
          | |- keeps_outside (logging_info _) => apply outside_logging_info
          | |- keeps_outside (logging_error _) => apply outside_logging_error
          | |- keeps_outside (utcnow _) => apply outside_utcnow
          | |- keeps_outside (getitem _ _) => apply outside_getitem
          | |- keeps_outside (set_metrics_report _) => apply outside_set_metrics_report
          | |- keeps_outside (metrics_report_append _) => apply outside_metrics_report_append
          | |- keeps_outside (match ?x with _ => _ end) => destruct x
          | |- Forall _ (_ :: _) => constructor
          | |- Forall _ [] => constructor
          | |- forall _, _ => intro
          end; cbn [snd]).

Lemma outside_get_metric_statistics env c i mn ns p st et :
  keeps_outside (get_metric_statistics env c i mn ns p st et).
Proof. unfold get_metric_statistics. solve_outside. Qed.

Lemma outside_get_instance_metrics env p r i :
  keeps_outside (get_instance_metrics env p r i).
Proof.
  unfold get_instance_metrics, new_Session, new_client.
  repeat first [ apply outside_get_metric_statistics | progress solve_outside ].
Qed.

Lemma outside_get_all_instances env p r : keeps_outside (get_all_instances env p r).
Proof. unfold get_all_instances, new_Session, new_client. solve_outside. Qed.

Lemma outside_print_metrics i (metrics : dict (value float)) :
  keeps_outside (print_metrics i metrics).
Proof. unfold print_metrics. solve_outside. Qed.

Lemma outside_instance_body env p r i : keeps_outside (instance_body env p r i).
Proof.
  unfold instance_body.
  repeat first [ apply outside_get_instance_metrics | apply outside_print_metrics
               | progress solve_outside ].
Qed.

Lemma outside_profile_body env item : keeps_outside (profile_body env item).
Proof.
  destruct item as [p r]. unfold profile_body.
  repeat first [ apply outside_get_all_instances | apply outside_instance_body
               | progress solve_outside ].
Qed.

Lemma outside_build_report env : keeps_outside (build_report env).
Proof.
  unfold build_report.
  repeat first [ apply outside_profile_body | progress solve_outside ].
Qed.

(** ** Sessions and clients that cannot be made *)

Lemma new_Session_fails env p r w e :
  boto3_Session env p r = Some e -> new_Session env p r w = (Raise e, w).
Proof. intros Hs. unfold new_Session, bind, call. rewrite Hs. reflexivity. Qed.

Lemma new_client_fails env s service w e :
  Session_client env s service = Some e -> new_client env s service w = (Raise e, w).
Proof. intros Hc. unfold new_client, bind, call. rewrite Hc. reflexivity. Qed.

Lemma handled_or_not {A} (answer : result A) :
  handled answer \/ exists e, answer = Raise e /\ isinstance e BotoCoreError = false.
Proof.
  destruct answer as [a|e]; [left; exact I|].
  destruct (isinstance e BotoCoreError) eqn:Hi; [left; exact Hi | right; eauto].
Qed.

(** ** [get_instance_metrics], query by query *)

Lemma get_instance_metrics_four_handled env p r i w :
  boto3_Session env p r = None ->
  Session_client env (session_of p r) "cloudwatch" = None ->
  Forall (fun query => handled (instance_answer env p r i (clock env (clock_reads w)) query))
    QUERIES ->
  exists w',
    get_instance_metrics env p r i w
    = (Normal (expected_metrics env p r i (clock env (clock_reads w))), w')
    /\ quiet w w' 1 [].
Proof.
  intros Hs Hc Hq. unfold QUERIES in Hq.
  inversion Hq as [|? ? H1 Hq1]; subst. inversion Hq1 as [|? ? H2 Hq2]; subst.
  inversion Hq2 as [|? ? H3 Hq3]; subst. inversion Hq3 as [|? ? H4 _]; subst.
  unfold instance_answer in *. cbn [fst snd] in *.
  unfold get_instance_metrics.
  rewrite (bind_Normal _ _ _ _ _ (new_Session_ok env p r w Hs)).
  rewrite (bind_Normal _ _ _ _ _ (new_client_ok env _ _ w Hc)).
  rewrite (bind_Normal _ _ _ _ _ (utcnow_eq env w)).
  fold (cloudwatch_client p r). cbv zeta.
  erewrite bind_Normal by (apply get_metric_statistics_handled, H1).
  erewrite bind_Normal by (apply get_metric_statistics_handled, H2).
  erewrite bind_Normal by (apply get_metric_statistics_handled, H3).
  erewrite bind_Normal by (apply get_metric_statistics_handled, H4).
  eexists. split; [reflexivity|]. solve_quiet.
Qed.

(** ** The cells of a row *)

Lemma schema_row_cells (row : dict (value float)) :
  Dict.keys row = SCHEMA ->
  map (fun c => Dict.get c row) SCHEMA = map (fun kv => Some (snd kv)) row.
Proof.
  unfold Dict.keys, SCHEMA, METRICS. intros Hkeys.
  repeat (destruct row as [|[? ?] row]; try discriminate Hkeys).
  cbn [map fst app] in Hkeys.
  injection Hkeys as -> -> -> -> -> -> ->. reflexivity.
Qed.

End FurtherLemmas.

(** ** [os.path.basename] *)

Lemma basename_without_slash p : has_slash p = false -> basename p = p.
Proof. destruct p as [|c p]; [reflexivity|]. intros Hp. cbn [basename]. rewrite Hp. reflexivity. Qed.

Lemma has_slash_after_slash dir name :
  has_slash (dir ++ String (Ascii.ascii_of_nat 47) name) = true.
Proof.
  induction dir as [|c dir IH].
  - reflexivity.
  - change (has_slash (String c (dir ++ String (Ascii.ascii_of_nat 47) name)) = true).
    cbn [has_slash].
    destruct (Ascii.eqb c (Ascii.ascii_of_nat 47)); [reflexivity | exact IH].
Qed.

Lemma has_slash_basename p : has_slash (basename p) = false.
Proof.
  induction p as [|c p IH]; [reflexivity|]. cbn [basename].
  destruct (has_slash (String c p)) eqn:Hp; [exact IH | exact Hp].
Qed.

(** * Further properties of the script *)

(** X1. For a file that parses, [get_profiles] raises exactly when
    the store has a section and a lookup of the loop raises, and it
    raises the error of the first such lookup: that of
    [config.get('default', 'region')] (no section [default], no region
    in it, or a region that cannot be interpolated), else that of the
    region of the first section, in file order, whose value cannot be
    interpolated. In every other case it returns a mapping. *)
Theorem get_profiles_raises_exactly config e :
  get_profiles (Some config) = Raise e <->
  config_sections config <> []
  /\ (config_get config "default" "region" None = Raise e
      \/ exists d before s after,
           config_get config "default" "region" None = Normal d
           /\ config_sections config = (before ++ s :: after)%list
           /\ Forall (fun s' => exists v,
                        config_get config s' "region" (Some d) = Normal v) before
           /\ config_get config s "region" (Some d) = Raise e).
Proof.
  unfold get_profiles, config_read. cbv zeta. apply get_profiles_loop_raises.
Qed.

(** X2. The mapping [get_profiles] returns is empty exactly when there
    is no section to read: the file is missing, or it has no section
    (options under [DEFAULT] alone make no profile). *)
Theorem get_profiles_empty_exactly file :
  get_profiles file = Normal [] <-> config_sections (config_read file) = [].
Proof.
  unfold get_profiles. cbv zeta. split.
  - intros Hrun. destruct (config_sections (config_read file)) as [|s names] eqn:Hs;
      [reflexivity|].
    exfalso. apply (get_profiles_loop_nonempty _ _ _ _ Hrun); [|reflexivity].
    right. discriminate.
  - intros ->. reflexivity.
Qed.

(** X3. A store with at least one section and no section named
    [default] makes [get_profiles] raise [NoSectionError], whatever
    regions its sections have; a section named [default] without a
    region, own or inherited from [DEFAULT], makes it raise
    [NoOptionError]. *)
Theorem get_profiles_needs_a_default_region config :
  config_sections config <> [] ->
  (Dict.get "default" (sections config) = None ->
   get_profiles (Some config) = Raise (Exn NoSectionError "No section: 'default'"))
  /\ (forall own,
        Dict.get "default" (sections config) = Some own ->
        Dict.get "region" own = None ->
        Dict.get "region" (defaults config) = None ->
        get_profiles (Some config)
        = Raise (Exn NoOptionError "No option 'region' in section: 'default'")).
Proof.
  intros Hne. unfold get_profiles, config_read. cbv zeta.
  destruct (config_sections config) as [|s names]; [congruence|].
  cbn [get_profiles_loop]. unfold config_get at 1 3.
  change (optionxform "region") with "region". split.
  - intros ->. reflexivity.
  - intros own -> -> ->. reflexivity.
Qed.

(** X4. When no region of the store holds a [%] (interpolation then
    leaves the regions as they are) and the section named [default] has
    a region, [get_profiles] returns one entry per section, in the
    order of the file, and the region of a section is its own, else the
    one under [DEFAULT], else the region of [default]. *)
Theorem profiles_follow_the_sections config d :
  plain_regions config ->
  config_get config "default" "region" None = Normal d ->
  NoDup (config_sections config) ->
  exists m,
    get_profiles (Some config) = Normal m
    /\ Dict.keys m = config_sections config
    /\ (forall s own,
          Dict.get s (sections config) = Some own ->
          Dict.get s m
          = Some (match Dict.get "region" own with
                  | Some v => v
                  | None =>
                      match Dict.get "region" (defaults config) with
                      | Some v => v
                      | None => d
                      end
                  end)).
Proof.
  intros Hplain Hd Hnd.
  destruct (get_profiles_with_default config d Hplain Hd Hnd)
    as (m & Hrun & Hkeys & Hget).
  exists m. split; [exact Hrun|]. split; [exact Hkeys|].
  intros s own Hown. apply Hget. exact Hown.
Qed.

Section Extras.

Context {float : Type} `{!PyFloat float}.

Local Open Scope py_scope.

Implicit Types (env : Env float) (w : World float).

(** X5. An exception of the metric query that is no [BotoCoreError]
    (botocore's [ClientError], say) is not caught:
    [get_metric_statistics] raises it as it is and logs nothing. *)
Theorem other_query_errors_go_through env c i mn ns p st et w e :
  cw_get_metric_statistics env c (metric_query i mn ns p st et) = Raise e ->
  isinstance e BotoCoreError = false ->
  get_metric_statistics env c i mn ns p st et w = (Raise e, w).
Proof. apply get_metric_statistics_unhandled. Qed.

(** X6. What [get_metric_statistics] logs: nothing when the query
    answers; one ERROR record "Credential error for instance ..." when
    it raises [NoCredentialsError] or [PartialCredentialsError] (the
    first [except] clause wins, though both are [BotoCoreError]s); one
    ERROR record "Error accessing AWS for instance ..." for any other
    [BotoCoreError]. Nothing else in the world changes. *)
Theorem get_metric_statistics_log env c i mn ns p st et w :
  (forall response,
     cw_get_metric_statistics env c (metric_query i mn ns p st et) = Normal response ->
     snd (get_metric_statistics env c i mn ns p st et w) = w)
  /\ (forall e,
        cw_get_metric_statistics env c (metric_query i mn ns p st et) = Raise e ->
        exn_cls e = NoCredentialsError \/ exn_cls e = PartialCredentialsError ->
        snd (get_metric_statistics env c i mn ns p st et w)
        = with_log
            (log w ++ [(ERROR, ("Credential error for instance " ++ i ++ ": "
                                  ++ exn_str e)%string)])%list w)
  /\ (forall e,
        cw_get_metric_statistics env c (metric_query i mn ns p st et) = Raise e ->
        exn_cls e = BotoCoreError ->
        snd (get_metric_statistics env c i mn ns p st et w)
        = with_log
            (log w ++ [(ERROR, ("Error accessing AWS for instance " ++ i ++ ": "
                                  ++ exn_str e)%string)])%list w).
Proof.
  split; [|split].
  - intros response Ha.
    rewrite get_metric_statistics_handled by (rewrite Ha; exact I).
    rewrite Ha. cbn [snd error_records]. rewrite app_nil_r. destruct w; reflexivity.
  - intros e Ha Hcls.
    rewrite get_metric_statistics_handled
      by (rewrite Ha; unfold handled, isinstance; destruct Hcls as [-> | ->]; reflexivity).
    rewrite Ha. cbn [snd error_records]. unfold error_record, isinstance.
    destruct Hcls as [-> | ->]; reflexivity.
  - intros e Ha Hcls.
    rewrite get_metric_statistics_handled
      by (rewrite Ha; unfold handled, isinstance; rewrite Hcls; reflexivity).
    rewrite Ha. cbn [snd error_records]. unfold error_record, isinstance.
    rewrite Hcls. reflexivity.
Qed.

(** X7. When the clients can be made and the listing answers,
    [get_all_instances] returns the instance ids of all reservations
    flattened in order -- reservation by reservation, instance by
    instance -- as many as the reservations hold together, and changes
    nothing in the world. *)
Theorem get_all_instances_flattens env p r w response :
  boto3_Session env p r = None ->
  Session_client env (session_of p r) "ec2" = None ->
  describe_instances env (ec2_client p r) = Normal response ->
  get_all_instances env p r w
  = (Normal (flat_map (fun reservation => map InstanceId (Instances reservation))
               (Reservations response)), w)
  /\ length (collect_instance_ids response)
     = list_sum (map (fun reservation => length (Instances reservation))
                   (Reservations response)).
Proof.
  intros Hs Hc Hd. split.
  - rewrite get_all_instances_handled
      by (repeat split; [exact Hs | exact Hc | simpl; rewrite Hd; exact I]).
    unfold discovered. rewrite Hd. cbn [error_records].
    rewrite collect_instance_ids_flat_map, app_nil_r. destruct w; reflexivity.
  - rewrite collect_instance_ids_flat_map.
    induction (Reservations response) as [|reservation rest IH]; [reflexivity|].
    cbn [flat_map map list_sum]. rewrite length_app, length_map, IH. reflexivity.
Qed.

(** X8. [get_all_instances] makes its session and its client before the
    [try]: an error there goes through whatever its class, also a
    [BotoCoreError]; and an error of the listing that is no
    [BotoCoreError] goes through too. In each case nothing is logged. *)
Theorem get_all_instances_lets_errors_through env p r w e :
  (boto3_Session env p r = Some e ->
   get_all_instances env p r w = (Raise e, w))
  /\ (boto3_Session env p r = None ->
      Session_client env (session_of p r) "ec2" = Some e ->
      get_all_instances env p r w = (Raise e, w))
  /\ (boto3_Session env p r = None ->
      Session_client env (session_of p r) "ec2" = None ->
      describe_instances env (ec2_client p r) = Raise e ->
      isinstance e BotoCoreError = false ->
      get_all_instances env p r w = (Raise e, w)).
Proof.
  split; [|split].
  - apply get_all_instances_session_error.
  - intros Hs Hc. unfold get_all_instances.
    rewrite (bind_Normal _ _ _ _ _ (new_Session_ok env p r w Hs)).
    unfold new_client, bind, call. fold (session_of p r). rewrite Hc. reflexivity.
  - apply get_all_instances_unhandled.
Qed.

(** X9. [get_instance_metrics] returns exactly when its session and its
    CloudWatch client can be made and each of its four queries -- CPU,
    memory, threads, processes, all over the ten minutes before the one
    reading of the clock, with a period of 60 -- answers or raises a
    [BotoCoreError]; any other error of a query ends it with that
    error. *)
Theorem get_instance_metrics_returns_exactly env p r i w :
  (exists metrics w', get_instance_metrics env p r i w = (Normal metrics, w'))
  <-> boto3_Session env p r = None
      /\ Session_client env (session_of p r) "cloudwatch" = None
      /\ Forall (fun query =>
                   handled (instance_answer env p r i (clock env (clock_reads w)) query))
           QUERIES.
Proof.
  split.
  - intros (metrics & w' & Hrun). unfold get_instance_metrics in Hrun.
    destruct (boto3_Session env p r) as [e|] eqn:Hs.
    { rewrite (bind_Raise _ _ _ _ _ (new_Session_fails env p r w e Hs)) in Hrun.
      discriminate. }
    rewrite (bind_Normal _ _ _ _ _ (new_Session_ok env p r w Hs)) in Hrun.
    destruct (Session_client env (session_of p r) "cloudwatch") as [e|] eqn:Hc.
    { rewrite (bind_Raise _ _ _ _ _ (new_client_fails env _ _ w e Hc)) in Hrun.
      discriminate. }
    rewrite (bind_Normal _ _ _ _ _ (new_client_ok env _ _ w Hc)) in Hrun.
    rewrite (bind_Normal _ _ _ _ _ (utcnow_eq env w)) in Hrun.
    fold (cloudwatch_client p r) in Hrun. cbv zeta in Hrun.
    split; [reflexivity|]. split; [reflexivity|].
    unfold QUERIES, instance_answer.
    repeat
      (match type of Hrun with
       | bind (get_metric_statistics ?env0 ?c ?i0 ?mn ?ns ?p0 ?st ?et) _ ?w1 = _ =>
           let Hh := fresh "Hh" in
           let e := fresh "e" in
           let Ha := fresh "Ha" in
           let Hn := fresh "Hn" in
           destruct (handled_or_not
                       (cw_get_metric_statistics env0 c (metric_query i0 mn ns p0 st et)))
             as [Hh | (e & Ha & Hn)];
           [ rewrite (bind_Normal _ _ _ _ _
                        (get_metric_statistics_handled env0 c i0 mn ns p0 st et w1 Hh))
               in Hrun;
             constructor; [exact Hh|]
           | rewrite (bind_Raise _ _ _ _ _
                        (get_metric_statistics_unhandled env0 c i0 mn ns p0 st et w1 e Ha Hn))
               in Hrun;
             discriminate ]
       end).
    constructor.
  - intros (Hs & Hc & Hq).
    destruct (get_instance_metrics_four_handled env p r i w Hs Hc Hq) as (w' & Hrun & _).
    eauto.
Qed.

(** X10. [print_metrics] returns exactly when the dictionary has the
    four metric keys; a missing key ends it with [KeyError]. Either way
    it only adds records to the log. *)
Theorem print_metrics_returns_exactly i (metrics : dict (value float)) w :
  ((exists w', print_metrics i metrics w = (Normal tt, w'))
   <-> forall m, In m METRICS -> Dict.get m metrics <> None)
  /\ (forall e w', print_metrics i metrics w = (Raise e, w') -> exn_cls e = KeyError)
  /\ only_logged w (snd (print_metrics i metrics w)).
Proof.
  unfold print_metrics, bind, logging_info, getitem, ret, raise, only_logged.
  destruct (Dict.get "CPU Utilization" metrics) eqn:H1;
    [destruct (Dict.get "Memory Utilization" metrics) eqn:H2;
     [destruct (Dict.get "Threads Running" metrics) eqn:H3;
      [destruct (Dict.get "Processes Running" metrics) eqn:H4|]|]|];
    (split; [split|split]);
    try (intros [w' Hrun]; discriminate Hrun);
    try (intros e w' [= <- _]; reflexivity);
    try (intros e w' Hrun; discriminate Hrun);
    try (eexists; destruct w; cbn; rewrite <- ?app_assoc; reflexivity).
  - intros _ m [<-|[<-|[<-|[<-|[]]]]]; congruence.
  - intros _. eexists. reflexivity.
  - intros Hall. exfalso. apply (Hall "Processes Running"); [simpl; auto 6 | exact H4].
  - intros Hall. exfalso. apply (Hall "Threads Running"); [simpl; auto | exact H3].
  - intros Hall. exfalso. apply (Hall "Memory Utilization"); [simpl; auto | exact H2].
  - intros Hall. exfalso. apply (Hall "CPU Utilization"); [simpl; auto | exact H1].
Qed.

(** X11. Building the report writes no file, changes no environment
    variable and sends no mail, however it ends; and when it ends with
    an exception, [main] ends with the same exception in the same
    world: nothing is exported and nothing is mailed. *)
Theorem failed_build_delivers_nothing env w :
  untouched w (snd (build_report env w))
  /\ (forall e w', build_report env w = (Raise e, w') -> main env w = (Raise e, w')).
Proof.
  split.
  - apply outside_build_report.
  - intros e w' Hrun. unfold main. apply bind_Raise, Hrun.
Qed.

(** X12. A profile whose session cannot be made ends the run, though
    the error is often a [BotoCoreError]: when the profiles before it
    are dealt with, [main] raises the error of the session, the report
    holds the rows of the earlier profiles only, and no file is written
    and no mail sent. The profiles after it are never visited. *)
Theorem unopened_profile_ends_the_run env w before p r after e :
  get_profiles (aws_config env) = Normal (before ++ (p, r) :: after)%list ->
  (forall item, In item before -> enumerable env item /\ measurable env item) ->
  boto3_Session env p r = Some e ->
  exists w',
    main env w = (Raise e, w')
    /\ metrics_report w' = expected_report env before (clock_reads w)
    /\ untouched w w'.
Proof.
  intros Hp Hall Hs.
  assert (Hbuild : exists w',
             build_report env w = (Raise e, w')
             /\ metrics_report w' = expected_report env before (clock_reads w)).
  { unfold build_report, lift. unfold bind at 1. rewrite Hp.
    erewrite bind_Normal by reflexivity. unfold Dict.items.
    rewrite for_each_app.
    destruct (profiles_loop_handled env before (with_metrics_report [] w) Hall)
      as (w1 & n & Hrun & (_ & _ & _ & _ & Hr)).
    rewrite (bind_Normal _ _ _ _ _ Hrun). cbn [for_each].
    eexists. split.
    - apply bind_Raise. unfold profile_body.
      erewrite bind_Normal by reflexivity.
      apply bind_Raise, get_all_instances_session_error, Hs.
    - exact Hr. }
  destruct Hbuild as (w' & Hrun & Hr).
  exists w'. split; [|split; [exact Hr|]].
  - unfold main. apply bind_Raise, Hrun.
  - pose proof (outside_build_report env w) as Hout. rewrite Hrun in Hout. exact Hout.
Qed.

(** X13. When every call for the profiles and their instances is dealt
    with, the path can be written and the mail server takes the
    message, the run ends normally: the file holds the table of the
    report, that is of the rows of all instances in discovery order,
    and exactly one message, carrying that table, has been sent. *)
Theorem run_delivers_the_report env w profiles :
  get_profiles (aws_config env) = Normal profiles ->
  (forall item, In item profiles -> enumerable env item /\ measurable env item) ->
  file_write env REPORT_FILE = None ->
  server_accepts_login env w ->
  SMTP_send_message env
    (report_message env w (expected_report env profiles (clock_reads w))) = None ->
  SMTP_quit env = None ->
  exists w',
    main env w = (Normal tt, w')
    /\ metrics_report w' = expected_report env profiles (clock_reads w)
    /\ read_excel REPORT_FILE w'
       = Some (pd_DataFrame (expected_report env profiles (clock_reads w)))
    /\ outbox w'
       = (outbox w
            ++ [report_message env w (expected_report env profiles (clock_reads w))])%list.
Proof.
  intros Hp Hall Hw Hserver Hsend Hquit.
  destruct (build_report_handled env profiles w Hp Hall)
    as (w1 & Hrun & Hr & Hf & He & Ho).
  assert (Hmsg : report_message env w1 (metrics_report w1)
                 = report_message env w (expected_report env profiles (clock_reads w))).
  { unfold report_message, from_email_of. rewrite He, Hr. reflexivity. }
  destruct (deliver_report_sent env w1 Hw) as (w2 & Hrun2 & Ho2 & Hf2).
  - unfold server_accepts_login, from_email_of, from_password_of in *.
    rewrite He. exact Hserver.
  - rewrite Hmsg. exact Hsend.
  - exact Hquit.
  - exists w2. split; [|split; [|split]].
    + unfold main. rewrite (bind_Normal _ _ _ _ _ Hrun). exact Hrun2.
    + pose proof (keeps_deliver_report env w1) as Hk. rewrite Hrun2 in Hk.
      cbn [snd] in Hk. rewrite Hk. exact Hr.
    + rewrite Hr in Hf2. exact Hf2.
    + rewrite Ho2, Hmsg, Ho. reflexivity.
Qed.

(** X14. A successful export replaces the file at its path, whatever
    was there, by the table of the rows it was given, and touches no
    other file, no environment variable, not the outbox and not the
    report. *)
Theorem export_replaces_one_file env data filename w :
  file_write env filename = None ->
  read_excel filename (snd (export_to_excel env data filename w))
  = Some (pd_DataFrame data)
  /\ (forall other,
        other <> filename ->
        read_excel other (snd (export_to_excel env data filename w))
        = read_excel other w)
  /\ environ (snd (export_to_excel env data filename w)) = environ w
  /\ outbox (snd (export_to_excel env data filename w)) = outbox w
  /\ metrics_report (snd (export_to_excel env data filename w)) = metrics_report w.
Proof.
  intros Hw. rewrite (export_to_excel_ok env data filename w Hw).
  unfold read_excel. cbn [snd files environ outbox metrics_report with_log with_files].
  split; [apply lookup_insert_eq|]. split; [|auto].
  intros other Hne. apply lookup_insert_ne. congruence.
Qed.

(** X15. When the report is built but its file cannot be written,
    [main] ends with the error of the write, in the world the build
    left: no file is written, nothing more is logged and no mail is
    sent. *)
Theorem unwritable_path_ends_the_run env w0 w e :
  build_report env w0 = (Normal tt, w) ->
  file_write env REPORT_FILE = Some e ->
  main env w0 = (Raise e, w).
Proof.
  intros Hb Hw. unfold main. rewrite (bind_Normal _ _ _ _ _ Hb).
  apply deliver_report_export_fails, Hw.
Qed.

(** X16. The table of a report whose rows have the keys of the schema
    holds, row for row, the seven values of the row in the order of the
    schema: no cell is missing and none is moved. *)
Theorem table_rows_hold_the_report (data : list (dict (value float))) :
  Forall row_ok data ->
  rows (pd_DataFrame data) = map (fun row => map (fun kv => Some (snd kv)) row) data
  /\ Forall (fun cells => length cells = length SCHEMA) (rows (pd_DataFrame data)).
Proof.
  intros Hrows.
  assert (Hkeys : Forall (fun row => Dict.keys row = SCHEMA) data).
  { eapply Forall_impl; [exact Hrows|]. intros row [Hk _]. exact Hk. }
  assert (Heq : rows (pd_DataFrame data)
                = map (fun row => map (fun kv => Some (snd kv)) row) data).
  { unfold pd_DataFrame. cbn [rows]. rewrite (union_keys_schema data Hkeys).
    destruct data as [|row0 rest]; [reflexivity|].
    induction Hkeys as [|row rows' Hrow Hrest IH]; [reflexivity|].
    cbn [map]. rewrite (schema_row_cells row Hrow). f_equal. apply IH.
    inversion Hrows; assumption. }
  split; [exact Heq|].
  rewrite Heq. clear Heq Hrows.
  induction Hkeys as [|row rows' Hrow Hrest IH]; constructor; [|exact IH].
  rewrite length_map. unfold Dict.keys in Hrow. rewrite <- Hrow, length_map. reflexivity.
Qed.

(** X17. When the file to attach does not exist, [send_email] raises
    the error of [open] whatever the mail server would have answered:
    no message is sent. *)
Theorem missing_attachment_stops_the_mail env subject body to_email f w :
  files w !! f = None ->
  exists w',
    send_email env subject body to_email f w
    = (Raise (Exn OSError ("No such file or directory: '" ++ f ++ "'")), w')
    /\ outbox w' = outbox w
    /\ files w' = files w.
Proof.
  intros Hf.
  unfold send_email, read_file, load_dotenv, getenv, logging_info, bind, ret.
  cbn [log clock_reads files environ outbox metrics_report
       with_log with_environ].
  rewrite Hf. eexists. split; [reflexivity|]. split; reflexivity.
Qed.

(** X18. The message [send_email] sends to a recipient when the
    server takes the dialogue (the connection, STARTTLS, the login with
    the credentials of the run, that very message, QUIT): the sender is
    the variable EMAIL_SOURCE of the process when it is set, and that
    of the [.env] file only when it is not; the recipient, subject and
    body are the arguments; the attachment is the content of the file,
    under the name of the path without its directory. Exactly that one
    message is sent. *)
Theorem send_email_sends_one_message env subject body recipient f w payload :
  files w !! f = Some payload ->
  SMTP_connect env "smtp.gmail.com" 587 = None ->
  SMTP_starttls env = None ->
  SMTP_login env (from_email_of env w) (from_password_of env w) = None ->
  SMTP_send_message env
    {| msg_From := from_email_of env w;
       msg_To := Some recipient;
       msg_Subject := subject;
       msg_body := body;
       attachment_filename := basename f;
       attachment_payload := payload |} = None ->
  SMTP_quit env = None ->
  exists w',
    send_email env subject body (Some recipient) f w = (Normal tt, w')
    /\ outbox w'
       = (outbox w
            ++ [ {| msg_From :=
                      match environ w !! "EMAIL_SOURCE" with
                      | Some v => Some v
                      | None => dotenv env !! "EMAIL_SOURCE"
                      end;
                    msg_To := Some recipient;
                    msg_Subject := subject;
                    msg_body := body;
                    attachment_filename := basename f;
                    attachment_payload := payload |} ])%list.
Proof.
  intros Hf Hc Ht Hl Hm Hq.
  destruct (send_email_sent env subject body (Some recipient) f w payload
              Hf Hc Ht Hl Hm Hq) as (w' & Hrun & Ho & _).
  exists w'. split; [exact Hrun|]. rewrite Ho. do 3 f_equal.
  unfold from_email_of. rewrite lookup_union.
  destruct (environ w !! "EMAIL_SOURCE"), (dotenv env !! "EMAIL_SOURCE"); reflexivity.
Qed.

(** X19. [main] reads the recipient from the process environment
    before [send_email] loads the [.env] file. A process started
    without the variable EMAIL_RECIPIENT therefore hands over a message
    without recipient, whatever the [.env] file names; smtplib refuses
    such a message, so when the file can be written and the server
    takes the login, the run ends with that refusal (or with the error
    of QUIT), after the file is written and with nothing sent. *)
Theorem recipient_is_read_before_dotenv env w :
  environ w !! "EMAIL_RECIPIENT" = None ->
  file_write env REPORT_FILE = None ->
  server_accepts_login env w ->
  (forall msg, msg_To msg = None -> SMTP_send_message env msg <> None) ->
  exists e e' w',
    SMTP_send_message env
      {| msg_From := from_email_of env w;
         msg_To := None;
         msg_Subject := "EC2 Metrics Report";
         msg_body := "Please find attached the EC2 metrics report.";
         attachment_filename := REPORT_FILE;
         attachment_payload := pd_DataFrame (metrics_report w) |} = Some e
    /\ deliver_report env w = (Raise e', w')
    /\ (SMTP_quit env = None -> e' = e)
    /\ outbox w' = outbox w
    /\ read_excel REPORT_FILE w' = Some (pd_DataFrame (metrics_report w)).
Proof.
  intros Hto Hw (Hc & Ht & Hl) Hrefuse.
  assert (Hmsg : report_message env w (metrics_report w)
                 = {| msg_From := from_email_of env w;
                      msg_To := None;
                      msg_Subject := "EC2 Metrics Report";
                      msg_body := "Please find attached the EC2 metrics report.";
                      attachment_filename := REPORT_FILE;
                      attachment_payload := pd_DataFrame (metrics_report w) |}).
  { unfold report_message. rewrite Hto. reflexivity. }
  rewrite <- Hmsg.
  destruct (SMTP_send_message env (report_message env w (metrics_report w)))
    as [e|] eqn:Hsend.
  - destruct (deliver_report_mail_fails env w e Hw) as (e' & w' & Hrun & Hq & Ho & Hf).
    { apply send_message_fails; assumption. }
    exists e, e', w'. auto.
  - exfalso. apply (Hrefuse (report_message env w (metrics_report w))).
    + unfold report_message. cbn [msg_To]. exact Hto.
    + exact Hsend.
Qed.

End Extras.

(** X20. The name under which the file is attached is the part of the
    path after its last slash: for a name without slash,
    [basename (dir/name)] is [name]; a path without slash is its own
    name; and the result never holds a slash. *)
Theorem basename_is_the_last_component dir name :
  has_slash name = false ->
  basename (dir ++ String (Ascii.ascii_of_nat 47) name) = name
  /\ basename name = name
  /\ has_slash (basename (dir ++ String (Ascii.ascii_of_nat 47) name)) = false.
Proof.
  intros Hn.
  assert (Hb : basename (dir ++ String (Ascii.ascii_of_nat 47) name) = name).
  { induction dir as [|c dir IH].
    - change (basename (String (Ascii.ascii_of_nat 47) name) = name).
      cbn [basename has_slash]. rewrite Ascii.eqb_refl.
      apply basename_without_slash, Hn.
    - change (basename (String c (dir ++ String (Ascii.ascii_of_nat 47) name)) = name).
      cbn [basename].
      change (String c (dir ++ String (Ascii.ascii_of_nat 47) name))
        with (String c dir ++ String (Ascii.ascii_of_nat 47) name).
      rewrite has_slash_after_slash. exact IH. }
  split; [exact Hb|]. split; [apply basename_without_slash, Hn|].
  apply has_slash_basename.
Qed.

(** * The further properties on the sample deployment *)

Lemma get_profiles_needs_a_default_region_witness :
  get_profiles (Some no_default_config)
  = Raise (Exn NoSectionError "No section: 'default'")
  /\ get_profiles (Some default_without_region_config)
     = Raise (Exn NoOptionError "No option 'region' in section: 'default'").
Proof.
  split.
  - apply (proj1 (get_profiles_needs_a_default_region no_default_config
                    ltac:(discriminate))).
    reflexivity.
  - apply (proj2 (get_profiles_needs_a_default_region default_without_region_config
                    ltac:(discriminate)) [("output", "json")]); reflexivity.
Defined.

Lemma inheriting_sections_NoDup : NoDup (config_sections inheriting_config).
Proof.
  unfold config_sections, inheriting_config, Dict.keys. cbn [sections map fst].
  repeat (apply NoDup_cons; split; [rewrite list_elem_of_In; simpl; intuition discriminate|]).
  apply NoDup_nil. exact I.
Qed.

Lemma inheriting_regions_plain : plain_regions inheriting_config.
Proof.
  split.
  - intros v Hv. injection Hv as <-. reflexivity.
  - intros s own v Hs Hv. unfold inheriting_config in Hs. cbn [sections Dict.get] in Hs.
    repeat match type of Hs with
           | (if String.eqb ?a ?b then _ else _) = _ =>
               destruct (String.eqb a b);
               [injection Hs as <-; vm_compute in Hv;
                first [discriminate | injection Hv as <-; reflexivity]|]
           end.
    discriminate.
Qed.

Lemma profiles_follow_the_sections_witness :
  exists m,
    get_profiles (Some inheriting_config) = Normal m
    /\ Dict.keys m = ["default"; "profile dev"; "profile bare"]
    /\ Dict.get "profile bare" m = Some "ap-south-1".
Proof.
  destruct (profiles_follow_the_sections inheriting_config "us-east-1"
              inheriting_regions_plain eq_refl
              inheriting_sections_NoDup) as (m & Hrun & Hkeys & Hget).
  exists m. split; [exact Hrun|]. split; [exact Hkeys|].
  apply (Hget "profile bare" [("output", "text")]). reflexivity.
Defined.

Lemma get_profiles_raises_exactly_witness :
  get_profiles (Some percent_config)
  = Raise (Exn InterpolationSyntaxError
             "'%' must be followed by '%' or '(', found: '%west'")
  /\ get_profiles (Some default_without_region_config)
     = Raise (Exn NoOptionError "No option 'region' in section: 'default'").
Proof.
  split.
  - apply (proj2 (get_profiles_raises_exactly percent_config _)).
    split; [discriminate|]. right.
    exists "us-east-1", ["default"], "profile dev", ["profile bare"].
    split; [reflexivity|]. split; [reflexivity|]. split; [|reflexivity].
    constructor; [|constructor]. exists "us-east-1". reflexivity.
  - apply (proj2 (get_profiles_raises_exactly default_without_region_config _)).
    split; [discriminate|]. left. reflexivity.
Defined.

Lemma other_query_errors_go_through_witness :
  get_metric_statistics env_throttled i_abc123_client
    "i-abc123" "mem_used_percent" "CWAgent" 60 0 600 w0
  = (Raise (Exn ClientError
              "An error occurred (Throttling) when calling the GetMetricStatistics operation"),
     w0).
Proof.
  apply (other_query_errors_go_through env_throttled); reflexivity.
Defined.

Lemma get_metric_statistics_log_witness :
  snd (get_metric_statistics env0 i_abc123_client
         "i-abc123" "procstat_threads" "CWAgent" 60 0 600 w0)
  = with_log
      [(ERROR, "Error accessing AWS for instance i-abc123: Could not connect to the endpoint URL")]
      w0.
Proof.
  apply (proj2 (proj2 (get_metric_statistics_log env0 i_abc123_client
                         "i-abc123" "procstat_threads" "CWAgent" 60 0 600 w0))
           (Exn BotoCoreError "Could not connect to the endpoint URL"));
    reflexivity.
Defined.

Lemma get_all_instances_flattens_witness :
  get_all_instances env_two_reservations "default" "us-east-1" w0
  = (Normal ["i-1"; "i-2"; "i-3"], w0).
Proof.
  apply (get_all_instances_flattens env_two_reservations "default" "us-east-1" w0
           two_reservations); reflexivity.
Defined.

Lemma get_all_instances_lets_errors_through_witness :
  get_all_instances env_unknown_profile "profile dev" "eu-west-1" w0
  = (Raise (Exn BotoCoreError "The config profile (profile dev) could not be found"), w0).
Proof.
  apply (proj1 (get_all_instances_lets_errors_through env_unknown_profile
                  "profile dev" "eu-west-1" w0
                  (Exn BotoCoreError "The config profile (profile dev) could not be found"))).
  reflexivity.
Defined.

Lemma default_profile_dealt_with item :
  In item [ ("default", "us-east-1") ] ->
  enumerable env_unknown_profile item /\ measurable env_unknown_profile item.
Proof.
  intros [<-|[]]. split; [repeat split|].
  right. split; [reflexivity | intros q; apply sample_metrics_handled].
Qed.

Lemma unopened_profile_ends_the_run_witness :
  exists w',
    main env_unknown_profile w0
    = (Raise (Exn BotoCoreError "The config profile (profile dev) could not be found"), w')
    /\ metrics_report w'
       = expected_report env_unknown_profile [ ("default", "us-east-1") ] 0
    /\ untouched w0 w'.
Proof.
  apply (unopened_profile_ends_the_run env_unknown_profile w0
           [ ("default", "us-east-1") ] "profile dev" "eu-west-1"
           [ ("profile bare", "us-east-1") ]).
  - reflexivity.
  - exact default_profile_dealt_with.
  - reflexivity.
Defined.

Lemma run_delivers_the_report_witness :
  exists w',
    main env0 w0 = (Normal tt, w')
    /\ metrics_report w'
       = [ [ ("Profile", VStr "default"); ("Region", VStr "us-east-1");
             ("Instance ID", VStr "i-abc123");
             ("CPU Utilization", VFloat "12.5");
             ("Memory Utilization", VStr "N/A");
             ("Threads Running", VStr "N/A");
             ("Processes Running", VStr "N/A") ] ]
    /\ length (outbox w') = 1.
Proof.
  destruct (run_delivers_the_report env0 w0
              [ ("default", "us-east-1"); ("profile dev", "eu-west-1");
                ("profile bare", "us-east-1") ])
    as (w' & Hrun & Hr & _ & Ho).
  - reflexivity.
  - exact typical_profiles_dealt_with.
  - reflexivity.
  - repeat split.
  - reflexivity.
  - reflexivity.
  - exists w'. split; [exact Hrun|]. split; [exact Hr|]. rewrite Ho. reflexivity.
Defined.

Lemma export_replaces_one_file_witness :
  read_excel REPORT_FILE (snd (export_to_excel env0 [] REPORT_FILE w_used))
  = Some {| columns := []; rows := [] |}
  /\ read_excel "notes.xlsx" (snd (export_to_excel env0 [] REPORT_FILE w_used))
     = Some {| columns := ["note"]; rows := [[Some (VStr "keep")]] |}.
Proof.
  destruct (export_replaces_one_file env0 [] REPORT_FILE w_used eq_refl)
    as (Hnew & Hother & _).
  split; [exact Hnew|].
  rewrite (Hother "notes.xlsx") by discriminate. vm_compute. reflexivity.
Defined.

Lemma unwritable_path_ends_the_run_witness :
  main env_read_only w0
  = (Raise (Exn OSError "Permission denied: 'ec2_metrics_report.xlsx'"),
     snd (build_report env_read_only w0)).
Proof.
  apply (unwritable_path_ends_the_run env_read_only w0).
  - vm_compute. reflexivity.
  - reflexivity.
Defined.

Lemma table_rows_hold_the_report_witness :
  rows (pd_DataFrame [expected_row env0 "default" "us-east-1" "i-abc123" 0])
  = [ [ Some (VStr "default"); Some (VStr "us-east-1"); Some (VStr "i-abc123");
        Some (VFloat "12.5"); Some (VStr "N/A"); Some (VStr "N/A");
        Some (VStr "N/A") ] ].
Proof.
  apply (proj1 (table_rows_hold_the_report
                  [expected_row env0 "default" "us-east-1" "i-abc123" 0]
                  ltac:(constructor; [apply expected_row_ok | constructor]))).
Defined.

Lemma missing_attachment_stops_the_mail_witness :
  exists w',
    send_email env0 "EC2 Metrics Report" "body" (Some "ops@example.com")
      "missing.xlsx" w0
    = (Raise (Exn OSError "No such file or directory: 'missing.xlsx'"), w')
    /\ outbox w' = []
    /\ files w' = ∅.
Proof.
  apply (missing_attachment_stops_the_mail env0 "EC2 Metrics Report" "body"
           (Some "ops@example.com") "missing.xlsx" w0).
  reflexivity.
Defined.

Lemma send_email_sends_one_message_witness :
  exists w',
    send_email env0 "Notes" "body" (Some "ops@example.com") "notes.xlsx" w_used
    = (Normal tt, w')
    /\ outbox w'
       = [ {| msg_From := Some "override@example.com";
              msg_To := Some "ops@example.com";
              msg_Subject := "Notes";
              msg_body := "body";
              attachment_filename := "notes.xlsx";
              attachment_payload :=
                {| columns := ["note"]; rows := [[Some (VStr "keep")]] |} |} ].
Proof.
  apply (send_email_sends_one_message env0 "Notes" "body" "ops@example.com"
           "notes.xlsx" w_used
           {| columns := ["note"]; rows := [[Some (VStr "keep")]] |});
    reflexivity.
Defined.

Lemma recipient_is_read_before_dotenv_witness :
  dotenv env_recipient_in_dotenv !! "EMAIL_RECIPIENT" = Some "ops@example.com"
  /\ environ w_bare !! "EMAIL_RECIPIENT" = None
  /\ exists e' w',
       deliver_report env_recipient_in_dotenv w_bare = (Raise e', w')
       /\ e' = Exn SMTPException "{}"
       /\ outbox w' = []
       /\ read_excel REPORT_FILE w' = Some {| columns := []; rows := [] |}.
Proof.
  split; [reflexivity|]. split; [reflexivity|].
  destruct (recipient_is_read_before_dotenv env_recipient_in_dotenv w_bare)
    as (e & e' & w' & Hsend & Hrun & Hq & Ho & Hf).
  - reflexivity.
  - reflexivity.
  - repeat split.
  - intros msg Hto. unfold env_recipient_in_dotenv, accepts_addressed.
    cbn [SMTP_send_message]. rewrite Hto. discriminate.
  - exists e', w'. split; [exact Hrun|]. split.
    + rewrite (Hq eq_refl). vm_compute in Hsend. injection Hsend as <-. reflexivity.
    + split; [exact Ho | exact Hf].
Defined.

Lemma basename_is_the_last_component_witness :
  basename "/tmp/reports/ec2_metrics_report.xlsx" = "ec2_metrics_report.xlsx"
  /\ basename "ec2_metrics_report.xlsx" = "ec2_metrics_report.xlsx"
  /\ has_slash (basename "/tmp/reports/ec2_metrics_report.xlsx") = false.
Proof.
  apply (basename_is_the_last_component "/tmp/reports" "ec2_metrics_report.xlsx").
  reflexivity.
Defined.
